(** * AliFilter: the Python API ([API/Python/alifilter.py])

    A shallow embedding of the feature extractor, the logistic scorer, the
    mask and the column filter, followed by the properties of the
    specification that concern them.

    Numbers.  Python's [float] and numpy's [float64] are read as real numbers
    ([R]): every number is finite, the arithmetic of the source is kept
    operation by operation, and its rounding, infinities and NaN and the
    range limits of [math.exp] are outside the model.  What binary64 changes
    is stated apart, in [Binary64]: the logistic function returns exactly
    [1.0] for a large logit, and [math.exp] raises [OverflowError] for a
    large negative one.  Python's [int] is [Z]; the 26
    numpy counters of type ['i'] are [Z] as well (they count rows, and stay
    far below [2^31]).  Indices produced by [range] are [nat].

    Text.  [Bio.Seq] encodes its text as ASCII, so a residue is an [ascii]
    read on its 7-bit range, where [str.upper] maps [a-z] to [A-Z] and
    changes nothing else.  A sequence built from bytes can hold any byte;
    [Raw] embeds the same source for such sequences, with [str.upper] on all
    256 characters, and the two embeddings are proved equal on 7-bit text.

    Records.  The filter rebuilds every record with [SeqRecord(...)].  The
    functions of [AliFilterModel] take the record it returns; [Raw] adds the
    check the constructor makes on per-letter annotations, and is proved to
    return nothing else than [AliFilterModel.filter] does.

    Exceptions.  A Python function that may raise returns a [result]; the
    exception is named by its class.

    Collaborators.  The alignment is what the source asks of
    [Bio.Align.MultipleSeqAlignment]: its records, in order, and the answer
    of [get_alignment_length()].  Biopython answers with the length of the
    longest record, [0] without records; [Bio.consistent] says so, and holds
    of every rectangular alignment with a row.  The model file is taken after
    [json.load], as the dictionary [__init__] indexes. *)

From Stdlib Require Import Ascii String.
From Stdlib Require Import Reals Lra Lia ZArith Bool Arith List Permutation.
From Stdlib Require Import Floats.
Import ListNotations.

Set Implicit Arguments.

(* ================================================================== *)
(** ** Python: exceptions, loops, built-ins *)

Module Py.

(** The exception classes.  The first six are the built-in classes the
    source can raise; [ConfigurationError] and [InvalidAlignmentError] are
    the two classes named in the specification (section 7). *)
Inductive exn : Set :=
| KeyError
| IndexError
| TypeError
| ValueError
| ZeroDivisionError
| OverflowError
| ConfigurationError
| InvalidAlignmentError.

Inductive result (A : Type) : Type :=
| Ok (a : A)
| Err (e : exn).

Arguments Ok {A} a.
Arguments Err {A} e.

Definition bind {A B} (m : result A) (k : A -> result B) : result B :=
  match m with
  | Ok a => k a
  | Err e => Err e
  end.

Definition range (n : nat) : list nat := seq 0 n.

(** [for x in xs: s = body(x, s)] *)
Fixpoint for_in {X S} (xs : list X) (body : X -> S -> result S) (s : S)
  : result S :=
  match xs with
  | [] => Ok s
  | x :: xs' => bind (body x s) (for_in xs' body)
  end.

(** [map] with a function that may raise, consumed from left to right. *)
Fixpoint map_raise {X Y} (f : X -> result Y) (xs : list X) : result (list Y) :=
  match xs with
  | [] => Ok []
  | x :: xs' =>
      bind (f x) (fun y => bind (map_raise f xs') (fun ys => Ok (y :: ys)))
  end.

(** [l[i]] on a list. *)
Definition index {A} (l : list A) (i : nat) : result A :=
  match nth_error l i with
  | Some a => Ok a
  | None => Err IndexError
  end.

(** [l[i] = v]: the list with position [i] replaced (unchanged when [i] is
    out of range; the callers test the range first). *)
Fixpoint update {A} (i : nat) (v : A) (l : list A) : list A :=
  match l, i with
  | [], _ => []
  | _ :: l', O => v :: l'
  | a :: l', S i' => a :: update i' v l'
  end.

(** [s[i]] on a string. *)
Definition str_index (s : string) (i : nat) : result ascii :=
  match String.get i s with
  | Some c => Ok c
  | None => Err IndexError
  end.

(** [''.join(cs)] for one-character strings [cs]. *)
Definition join (cs : list ascii) : string := string_of_list_ascii cs.

Definition ord (c : ascii) : Z := Z.of_nat (nat_of_ascii c).

(** [c.upper()] on a one-character ASCII string. *)
Definition upper (c : ascii) : ascii :=
  let n := nat_of_ascii c in
  if (97 <=? n)%nat && (n <=? 122)%nat then ascii_of_nat (n - 32) else c.

(** [a / b] on two [int]s: true division. *)
Definition truediv (a b : Z) : result R :=
  if (b =? 0)%Z then Err ZeroDivisionError else Ok (IZR a / IZR b)%R.

(** [max(l)] on a non-empty iterable. *)
Definition max (l : list Z) : result Z :=
  match l with
  | [] => Err ValueError
  | x :: l' => Ok (fold_left Z.max l' x)
  end.

(** [sum(l)] on floats: from [0], left to right. *)
Definition sum (l : list R) : R := fold_left Rplus l 0%R.

(** [x >= y] on floats. *)
Definition ge (x y : R) : bool := if Rge_dec x y then true else false.

End Py.

Import Py.

Declare Scope py_scope.
Notation "x <- e1 ;; e2" := (bind e1 (fun x => e2))
  (at level 61, e1 at next level, right associativity) : py_scope.
Open Scope py_scope.

(* ================================================================== *)
(** ** numpy: the arrays the source uses *)

Module numpy.

(** A two-dimensional [float64] array of shape [(length rows, ncols)];
    every row has [ncols] entries. *)
Record ndarray : Type := mk_ndarray {
  ncols : nat;
  rows : list (list R)
}.

Definition shape_ok (a : ndarray) : Prop :=
  Forall (fun r => length r = ncols a) (rows a).

(** [numpy.zeros([n, m])] *)
Definition zeros (n m : nat) : ndarray :=
  mk_ndarray m (repeat (repeat 0%R m) n).

(** [a[i, j]] *)
Definition getitem (a : ndarray) (i j : nat) : result R :=
  r <- index (rows a) i ;; index r j.

(** [a[i, j] = v] *)
Definition setitem (a : ndarray) (i j : nat) (v : R) : result ndarray :=
  r <- index (rows a) i ;;
  if (j <? length r)%nat
  then Ok (mk_ndarray (ncols a) (update i (update j v r) (rows a)))
  else Err IndexError.

(** The product of one row with a column vector. *)
Definition dot1 (r c : list R) : R :=
  Py.sum (map (fun p => (fst p * snd p)%R) (combine r c)).

(** [numpy.dot(a, c)] for [a] of shape [(n, m)] and a column [c] of shape
    [(k, 1)]: the column of shape [(n, 1)], or [ValueError] when [m <> k]. *)
Definition dot (a : ndarray) (c : list R) : result (list R) :=
  if (ncols a =? length c)%nat
  then Ok (map (fun r => dot1 r c) (rows a))
  else Err ValueError.

(** What [numpy.squeeze] makes of an array of shape [(n, 1)]: every axis of
    length one is removed, so a single entry becomes a 0-dimensional array
    and any other column a 1-dimensional one. *)
Inductive squeezed : Type :=
| Array0d (x : R)
| Array1d (v : list R).

Definition squeeze (col : list R) : squeezed :=
  match col with
  | [x] => Array0d x
  | _ => Array1d col
  end.

(** Iterating over an array, as [map] does: a 0-dimensional array cannot be
    iterated. *)
Definition iter (a : squeezed) : result (list R) :=
  match a with
  | Array0d _ => Err TypeError
  | Array1d v => Ok v
  end.

End numpy.

(* ================================================================== *)
(** ** Bio: the alignment the source queries *)

Module Bio.

(** [Bio.SeqRecord.SeqRecord]: the sequence and the seven fields the filter
    hands over.  [Bio.Seq] stores ASCII text. *)
Record SeqRecord : Type := mk_SeqRecord {
  seq : string;
  id : string;
  name : string;
  description : string;
  dbxrefs : list string;
  features : list string;
  annotations : list (string * string);
  letter_annotations : list (string * string)
}.

(** [Bio.Align.MultipleSeqAlignment] as the source sees it: the records it
    iterates over and indexes, and the answer of [get_alignment_length()]. *)
Record MultipleSeqAlignment : Type := mk_alignment {
  records : list SeqRecord;
  get_alignment_length : nat
}.

(** [len(alignment)] *)
Definition len (a : MultipleSeqAlignment) : nat := length (records a).

(** [alignment[i][column]] *)
Definition char_at (a : MultipleSeqAlignment) (i column : nat) : result ascii :=
  r <- index (records a) i ;; str_index (seq r) column.

(** All rows have the length the alignment reports. *)
Definition rectangular (a : MultipleSeqAlignment) : Prop :=
  Forall (fun r => String.length (seq r) = get_alignment_length a) (records a).

(** [Bio.Align.MultipleSeqAlignment(records)]: a new alignment of the given
    records; its length is the length of its rows, [0] without rows, and rows
    of different lengths are refused. *)
Definition new_alignment (rs : list SeqRecord) : result MultipleSeqAlignment :=
  match rs with
  | [] => Ok (mk_alignment [] 0)
  | r :: rs' =>
      if forallb (fun r' => (String.length (seq r') =? String.length (seq r))%nat) rs'
      then Ok (mk_alignment rs (String.length (seq r)))
      else Err ValueError
  end.

(** What Biopython answers to [get_alignment_length()]: the length of the
    longest record, [0] without records. *)
Definition longest (rs : list SeqRecord) : nat :=
  list_max (map (fun r => String.length (seq r)) rs).

(** The alignment reports the length Biopython computes from its records. *)
Definition consistent (a : MultipleSeqAlignment) : Prop :=
  get_alignment_length a = longest (records a).

(** [SeqRecord(seq, id=..., ..., letter_annotations=...)]: every per-letter
    annotation must have the length of the sequence. *)
Definition new_record (s : string) (id name description : string)
  (dbxrefs features : list string) (annotations : list (string * string))
  (letter_annotations : list (string * string)) : result SeqRecord :=
  if forallb (fun kv => (String.length (snd kv) =? String.length s)%nat)
       letter_annotations
  then Ok (mk_SeqRecord s id name description dbxrefs features annotations
                        letter_annotations)
  else Err TypeError.

End Bio.

Import numpy Bio.

(* ================================================================== *)
(** ** Feature extraction *)

(** The three accumulators of the row loop of
    [__alifilter_computeColumnFeatures]. *)
Record tally : Type := mk_tally {
  gapCount : Z;
  counts : list Z;
  validChars : Z
}.

Definition tally0 : tally := mk_tally 0 (repeat 0%Z 26) 0.

(** One row of the loop: the character [c] found at the column. *)
Definition count_char (c : ascii) (t : tally) : tally :=
  if Ascii.eqb c "-"%char
  then mk_tally (gapCount t + 1) (counts t) (validChars t)
  else
    let C := ord (upper c) in
    if ((65 <=? C) && (C <=? 90))%Z
    then
      let k := Z.to_nat (C - 65) in
      mk_tally (gapCount t)
               (update k (nth k (counts t) 0%Z + 1)%Z (counts t))
               (validChars t + 1)
    else t.

(** The summand of the entropy for one counter ([x] is a numpy integer, so
    the divisions are numpy's and raise nothing). *)
Definition entropy_term (validChars x : Z) : R :=
  if (x <=? 0)%Z then 0%R
  else (- IZR x / IZR validChars * ln (IZR x / IZR validChars))%R.

Definition __alifilter_computeColumnFeatures
  (alignment : MultipleSeqAlignment) (column : nat) (feature_matrix : ndarray)
  : result ndarray :=
  t <- for_in (range (len alignment))
         (fun i t => c <- char_at alignment i column ;; Ok (count_char c t))
         tally0 ;;
  (* % Gaps *)
  g <- truediv (gapCount t) (Z.of_nat (len alignment)) ;;
  fm <- setitem feature_matrix column 0 g ;;
  (* % Identity and entropy *)
  fm <- (if (validChars t >? 0)%Z
         then
           maxId <- Py.max (counts t) ;;
           let entropy := Py.sum (map (entropy_term (validChars t)) (counts t)) in
           fm <- setitem fm column 1 (IZR maxId / IZR (Z.of_nat (len alignment)))%R ;;
           setitem fm column 3 entropy
         else
           fm <- setitem fm column 1 0%R ;;
           setitem fm column 3 0%R) ;;
  (* Distance from extremity *)
  setitem fm column 2
    (IZR (Z.min (Z.of_nat column)
                (Z.of_nat (get_alignment_length alignment) - 1 - Z.of_nat column))).

(** [1 if c else 0], and the nested form of the wider window. *)
Definition one_if (c : bool) : Z := if c then 1%Z else 0%Z.
Definition two_one_if (c2 c1 : bool) : Z :=
  if c2 then 2%Z else if c1 then 1%Z else 0%Z.

(** [features[j, 0] if c else 0] *)
Definition read_if (c : bool) (features : ndarray) (j : nat) : result R :=
  if c then getitem features j 0 else Ok 0%R.

(** The body of the second loop of [__alifilter_getAlignmentFeatures]. *)
Definition smooth_column (alignmentLength : nat) (i : nat) (features : ndarray)
  : result ndarray :=
  let L := Z.of_nat alignmentLength in
  let z := Z.of_nat i in
  (* % Gaps +- 1 *)
  a1 <- read_if (z >? 0)%Z features (i - 1) ;;
  a2 <- getitem features i 0 ;;
  a3 <- read_if (z <? L - 1)%Z features (i + 1) ;;
  features <- setitem features i 4
    ((a1 + a2 + a3)
     / IZR (1 + one_if (z >? 0)%Z + one_if (z <? L - 1)%Z))%R ;;
  (* % Gaps +- 2 *)
  b1 <- read_if (z >? 1)%Z features (i - 2) ;;
  b2 <- read_if (z >? 0)%Z features (i - 1) ;;
  b3 <- getitem features i 0 ;;
  b4 <- read_if (z <? L - 1)%Z features (i + 1) ;;
  b5 <- read_if (z <? L - 2)%Z features (i + 2) ;;
  setitem features i 5
    ((b1 + b2 + b3 + b4 + b5)
     / IZR (1 + two_one_if (z >? 1)%Z (z >? 0)%Z
              + two_one_if (z <? L - 2)%Z (z <? L - 1)%Z))%R.

Definition __alifilter_getAlignmentFeatures (alignment : MultipleSeqAlignment)
  : result ndarray :=
  let alignmentLength := get_alignment_length alignment in
  let features := zeros alignmentLength 6 in
  (* Compute % Gaps, % Identity, Distance from extremity and Entropy. *)
  features <- for_in (range alignmentLength)
                (fun i fm => __alifilter_computeColumnFeatures alignment i fm)
                features ;;
  (* Compute % Gaps +- 1 and +- 2 *)
  for_in (range alignmentLength) (smooth_column alignmentLength) features.

(* ================================================================== *)
(** ** The model *)

(** The parsed model file ([json.load]): a dictionary that may hold
    ['LogisticModel'] and ['FastThreshold']; the former a dictionary that may
    hold ['Coefficients'] (a list of numbers) and ['Intercept'] (a number).
    [None] is an absent key. *)
Record LogisticModelJson : Type := mk_LogisticModelJson {
  Coefficients : option (list R);
  Intercept : option R
}.

Record ModelJson : Type := mk_ModelJson {
  LogisticModel : option LogisticModelJson;
  FastThreshold : option R
}.

(** [d[key]] on a dictionary entry. *)
Definition lookup {A} (entry : option A) : result A :=
  match entry with
  | Some v => Ok v
  | None => Err KeyError
  end.

Module AliFilterModel.

(** The attributes of an [AliFilterModel]; the coefficients are the column
    vector [numpy.transpose(numpy.array(..., ndmin=2))]. *)
Record t : Type := mk {
  logisticModelCoefficients : list R;
  logisticModelIntercept : R;
  threshold : R
}.

Definition __init__ (jsonModel : ModelJson) : result t :=
  lm <- lookup (LogisticModel jsonModel) ;;
  coefficients <- lookup (Coefficients lm) ;;
  lm' <- lookup (LogisticModel jsonModel) ;;
  intercept <- lookup (Intercept lm') ;;
  Ok (mk coefficients intercept
         (match FastThreshold jsonModel with
          | Some th => th
          | None => 0.5%R
          end)).

(** The lambda of [getScores]. *)
Definition logistic (self : t) (x : R) : R :=
  (1 / (1 + exp (- (x + logisticModelIntercept self))))%R.

Definition getScores (self : t) (features : ndarray) : result (list R) :=
  d <- dot features (logisticModelCoefficients self) ;;
  xs <- iter (squeeze d) ;;
  Ok (map (logistic self) xs).

(** The lambda of [getMaskFromScores]. *)
Definition mask_char (self : t) (x : R) : ascii :=
  if Py.ge x (threshold self) then "1"%char else "0"%char.

Definition getMaskFromScores (self : t) (scores : list R) : string :=
  join (map (mask_char self) scores).

Definition getMaskFromFeatures (self : t) (features : ndarray) : result string :=
  scores <- getScores self features ;;
  Ok (getMaskFromScores self scores).

Definition getMask (self : t) (alignment : MultipleSeqAlignment) : result string :=
  features <- __alifilter_getAlignmentFeatures alignment ;;
  getMaskFromFeatures self features.

(** The generator of [filter]:
    [seq.seq[i] for i in range(len(scores)) if scores[i] >= self.threshold]. *)
Fixpoint kept_chars (self : t) (s : string) (scores : list R) (ixs : list nat)
  : result (list ascii) :=
  match ixs with
  | [] => Ok []
  | i :: ixs' =>
      x <- index scores i ;;
      if Py.ge x (threshold self)
      then c <- str_index s i ;;
           cs <- kept_chars self s scores ixs' ;;
           Ok (c :: cs)
      else kept_chars self s scores ixs'
  end.

(** The lambda of [filter]: the record rebuilt around the kept characters. *)
Definition filter_record (self : t) (scores : list R) (r : SeqRecord)
  : result SeqRecord :=
  cs <- kept_chars self (seq r) scores (range (length scores)) ;;
  Ok (mk_SeqRecord (join cs) (id r) (name r) (description r) (dbxrefs r)
                   (features r) (annotations r) (letter_annotations r)).

Definition filter (self : t) (alignment : MultipleSeqAlignment)
  : result MultipleSeqAlignment :=
  feats <- __alifilter_getAlignmentFeatures alignment ;;
  scores <- getScores self feats ;;
  rs <- map_raise (filter_record self scores) (records alignment) ;;
  new_alignment rs.

End AliFilterModel.

(** The two methods the module attaches to [Bio.Align.MultipleSeqAlignment]:
    [getAlignmentFeatures = __alifilter_getAlignmentFeatures] and
    [filter = lambda self, model: model.filter(self)]. *)
Definition MultipleSeqAlignment_getAlignmentFeatures
  (self : MultipleSeqAlignment) : result ndarray :=
  __alifilter_getAlignmentFeatures self.

Definition MultipleSeqAlignment_filter (self : MultipleSeqAlignment)
  (model : AliFilterModel.t) : result MultipleSeqAlignment :=
  AliFilterModel.filter model self.

(* ================================================================== *)
(** ** The same source on any bytes and any records *)

Module Raw.

(** [c.upper()] for the character of any byte, as the code points of the
    result.  [a-z] and the lower-case letters of Latin-1 have one upper-case
    character, 32 below; the micro sign (181) becomes the Greek capital mu,
    [y] with diaeresis (255) its capital of code 376; the sharp s (223)
    becomes the two letters [SS]. *)
Definition upper (c : ascii) : list Z :=
  let n := Z.of_nat (nat_of_ascii c) in
  if (n =? 223)%Z then [83; 83]%Z
  else if (n =? 181)%Z then [924]%Z
  else if (n =? 255)%Z then [376]%Z
  else if ((97 <=? n) && (n <=? 122))%Z
          || ((224 <=? n) && (n <=? 254) && negb (n =? 247))%Z
       then [n - 32]%Z
       else [n].

(** [ord(s)]: the code point of a string of one character. *)
Definition ord (s : list Z) : result Z :=
  match s with
  | [C] => Ok C
  | _ => Err TypeError
  end.

(** One row of the loop of [__alifilter_computeColumnFeatures]. *)
Definition count_char (c : ascii) (t : tally) : result tally :=
  if Ascii.eqb c "-"%char
  then Ok (mk_tally (gapCount t + 1) (counts t) (validChars t))
  else
    C <- ord (upper c) ;;
    if ((65 <=? C) && (C <=? 90))%Z
    then
      let k := Z.to_nat (C - 65) in
      Ok (mk_tally (gapCount t)
                   (update k (nth k (counts t) 0%Z + 1)%Z (counts t))
                   (validChars t + 1))
    else Ok t.

Definition __alifilter_computeColumnFeatures
  (alignment : MultipleSeqAlignment) (column : nat) (feature_matrix : ndarray)
  : result ndarray :=
  t <- for_in (range (len alignment))
         (fun i t => c <- char_at alignment i column ;; count_char c t)
         tally0 ;;
  (* % Gaps *)
  g <- truediv (gapCount t) (Z.of_nat (len alignment)) ;;
  fm <- setitem feature_matrix column 0 g ;;
  (* % Identity and entropy *)
  fm <- (if (validChars t >? 0)%Z
         then
           maxId <- Py.max (counts t) ;;
           let entropy := Py.sum (map (entropy_term (validChars t)) (counts t)) in
           fm <- setitem fm column 1 (IZR maxId / IZR (Z.of_nat (len alignment)))%R ;;
           setitem fm column 3 entropy
         else
           fm <- setitem fm column 1 0%R ;;
           setitem fm column 3 0%R) ;;
  (* Distance from extremity *)
  setitem fm column 2
    (IZR (Z.min (Z.of_nat column)
                (Z.of_nat (get_alignment_length alignment) - 1 - Z.of_nat column))).

Definition __alifilter_getAlignmentFeatures (alignment : MultipleSeqAlignment)
  : result ndarray :=
  let alignmentLength := get_alignment_length alignment in
  let features := zeros alignmentLength 6 in
  (* Compute % Gaps, % Identity, Distance from extremity and Entropy. *)
  features <- for_in (range alignmentLength)
                (fun i fm => __alifilter_computeColumnFeatures alignment i fm)
                features ;;
  (* Compute % Gaps +- 1 and +- 2 *)
  for_in (range alignmentLength) (smooth_column alignmentLength) features.

Definition getMask (self : AliFilterModel.t) (alignment : MultipleSeqAlignment)
  : result string :=
  features <- __alifilter_getAlignmentFeatures alignment ;;
  AliFilterModel.getMaskFromFeatures self features.

(** The lambda of [filter], with the constructor's check. *)
Definition filter_record (self : AliFilterModel.t) (scores : list R)
  (r : SeqRecord) : result SeqRecord :=
  cs <- AliFilterModel.kept_chars self (seq r) scores (range (length scores)) ;;
  new_record (join cs) (id r) (name r) (description r) (dbxrefs r)
             (features r) (annotations r) (letter_annotations r).

Definition filter (self : AliFilterModel.t) (alignment : MultipleSeqAlignment)
  : result MultipleSeqAlignment :=
  feats <- __alifilter_getAlignmentFeatures alignment ;;
  scores <- AliFilterModel.getScores self feats ;;
  rs <- map_raise (filter_record self scores) (records alignment) ;;
  new_alignment rs.

(** [MultipleSeqAlignment.filter = lambda self, model: model.filter(self)] *)
Definition MultipleSeqAlignment_filter (self : MultipleSeqAlignment)
  (model : AliFilterModel.t) : result MultipleSeqAlignment :=
  filter model self.

End Raw.

(* ================================================================== *)
(** ** The logistic function in binary64 *)

Module Binary64.

(** [math.exp(x)] where the answer is the same with every C library.  The
    exponential of NaN is NaN.  At [-746] and below the exponential is under
    half the smallest positive binary64 number and the answer is [0.0]; at
    [710] and above it exceeds the largest one and Python raises
    [OverflowError], except that the exponential of infinity is infinity.  In
    between the last bit is the library's, and no answer is given here. *)
Definition math_exp (x : float) : option (result float) :=
  if is_nan x then Some (Ok x)
  else if (x <=? -746)%float then Some (Ok 0%float)
  else if (x =? infinity)%float then Some (Ok infinity)
  else if (710 <=? x)%float then Some (Err OverflowError)
  else None.

(** The lambda of [getScores], [1 / (1 + math.exp(-(x + intercept)))], with
    the operations of binary64. *)
Definition logistic (intercept x : float) : option (result float) :=
  match math_exp (- (x + intercept))%float with
  | Some (Ok e) => Some (Ok (1 / (1 + e))%float)
  | Some (Err e) => Some (Err e)
  | None => None
  end.

End Binary64.

(* ================================================================== *)
(** ** The vocabulary of the specification *)

Module Spec.

(** The characters of column [j], one per row that reaches it. *)
Definition column (a : MultipleSeqAlignment) (j : nat) : list ascii :=
  flat_map (fun r => match String.get j (seq r) with
                     | Some c => [c]
                     | None => []
                     end) (records a).

Definition is_gap (c : ascii) : bool := Ascii.eqb c "-"%char.

(** [c] is the [k]-th letter of the alphabet, in either case. *)
Definition is_letter (k : nat) (c : ascii) : bool :=
  Ascii.eqb c (ascii_of_nat (65 + k)) || Ascii.eqb c (ascii_of_nat (97 + k)).

Definition alphabet : list nat := List.seq 0 26.

Definition is_valid (c : ascii) : bool :=
  existsb (fun k => is_letter k c) alphabet.

Definition count (p : ascii -> bool) (cs : list ascii) : nat :=
  length (List.filter p cs).

Definition gapCount (cs : list ascii) : nat := count is_gap cs.
Definition letterCount (cs : list ascii) (k : nat) : nat := count (is_letter k) cs.
Definition letterCounts (cs : list ascii) : list nat := map (letterCount cs) alphabet.
Definition validChars (cs : list ascii) : nat := count is_valid cs.

Definition total (xs : list R) : R := fold_right Rplus 0%R xs.

Definition gapFraction (a : MultipleSeqAlignment) (j : nat) : R :=
  (INR (gapCount (column a j)) / INR (len a))%R.

Definition maxIdentityFraction (a : MultipleSeqAlignment) (j : nat) : R :=
  if (0 <? validChars (column a j))%nat
  then (INR (list_max (letterCounts (column a j))) / INR (len a))%R
  else 0%R.

Definition shannonEntropy (a : MultipleSeqAlignment) (j : nat) : R :=
  let cs := column a j in
  if (validChars cs =? 0)%nat then 0%R
  else
    (- total (map (fun k => let p := INR (letterCount cs k) / INR (validChars cs)
                            in p * ln p)
                  (List.filter (fun k => negb (letterCount cs k =? 0)%nat) alphabet)))%R.

Definition distanceFromExtremity (a : MultipleSeqAlignment) (j : nat) : R :=
  IZR (Z.min (Z.of_nat j) (Z.of_nat (get_alignment_length a) - 1 - Z.of_nat j)).




Definition sigmoid (z : R) : R := (1 / (1 + exp (- z)))%R.

Definition dot (v c : list R) : R :=
  total (map (fun p => (fst p * snd p)%R) (combine v c)).

(** The characters of [s] under the ['1'] entries of [mask], in order. *)
Fixpoint select (mask s : string) : string :=
  match mask, s with
  | String m mask', String c s' =>
      if Ascii.eqb m "1"%char then String c (select mask' s') else select mask' s'
  | _, _ => EmptyString
  end.

Definition ones (mask : string) : nat :=
  count (Ascii.eqb "1"%char) (list_ascii_of_string mask).

(** The column indices at which [mask] says keep. *)
Definition keptColumns (mask : string) : list nat :=
  List.filter (fun i => match String.get i mask with
                        | Some c => Ascii.eqb c "1"%char
                        | None => false
                        end)
              (List.seq 0 (String.length mask)).

(** Everything of a record but its sequence. *)
Definition metadata (r : SeqRecord) :=
  (id r, name r, description r, dbxrefs r, features r, annotations r,
   letter_annotations r).

(** A configuration the specification calls malformed: a field is missing, or
    the coefficient list does not have six entries. *)
Definition missing_field (cfg : ModelJson) : Prop :=
  match LogisticModel cfg with
  | None => True
  | Some lm => Coefficients lm = None \/ Intercept lm = None
  end.

Definition malformed (cfg : ModelJson) : Prop :=
  missing_field cfg
  \/ exists lm cs, LogisticModel cfg = Some lm /\ Coefficients lm = Some cs
                   /\ length cs <> 6%nat.

End Spec.

(* ================================================================== *)
(** ** Sample data *)

Definition record_of (s : string) : SeqRecord :=
  mk_SeqRecord s "id" "name" "description" [] [] [] [].

Definition alignment_of (rows : list string) (L : nat) : MultipleSeqAlignment :=
  mk_alignment (map record_of rows) L.

Definition zero_model : AliFilterModel.t :=
  AliFilterModel.mk (repeat 0%R 6) 0%R 0.5%R.

Definition five_coefficients : ModelJson :=
  mk_ModelJson (Some (mk_LogisticModelJson (Some [1; 2; 3; 4; 5]%R) (Some 0%R)))
               None.

Definition no_intercept : ModelJson :=
  mk_ModelJson (Some (mk_LogisticModelJson (Some [1; 2; 3; 4; 5; 6]%R) None))
               (Some 0.5%R).

(** The model file of [zero_model]: six coefficients 0, intercept 0 and no
    ['FastThreshold']. *)
Definition zero_configuration : ModelJson :=
  mk_ModelJson (Some (mk_LogisticModelJson (Some (repeat 0%R 6)) (Some 0%R)))
               None.

(** The sharp s of Latin-1, byte 223. *)
Definition sharp_s : ascii := ascii_of_nat 223.


(** A record with a per-letter annotation, one entry per letter. *)
Definition annotated_record (s quality : string) : SeqRecord :=
  mk_SeqRecord s "id" "name" "description" [] [] []
               [("quality"%string, quality)].

(* ================================================================== *)
(** ** Vocabulary of the proofs *)

(** The row loop of the extractor as a fold over the characters read. *)
Definition tally_from (t : tally) (cs : list ascii) : tally :=
  fold_left (fun t c => count_char c t) cs t.

(** The letter the extractor counts [c] under, if any. *)
Definition counted_letter (c : ascii) : option nat :=
  if Ascii.eqb c "-"%char then None
  else
    let C := ord (upper c) in
    if ((65 <=? C) && (C <=? 90))%Z then Some (Z.to_nat (C - 65)) else None.

(** The extractor and the specification agree on the class of [c]. *)
Definition same_class (c : ascii) : bool :=
  forallb (fun k => Bool.eqb (Spec.is_letter k c)
                      (match counted_letter c with
                       | Some k0 => (k =? k0)%nat
                       | None => false
                       end)) Spec.alphabet
  && Bool.eqb (Spec.is_valid c)
       (match counted_letter c with Some _ => true | None => false end)
  && match counted_letter c with Some k0 => (k0 <? 26)%nat | None => true end.

(** The four base features of column [j], and the row holding them. *)
Definition base_row (a : MultipleSeqAlignment) (j : nat) (r : list R) : list R :=
  update 2 (Spec.distanceFromExtremity a j)
    (update 3 (Spec.shannonEntropy a j)
       (update 1 (Spec.maxIdentityFraction a j)
          (update 0 (Spec.gapFraction a j) r))).

Definition first_pass_row (a : MultipleSeqAlignment) (j : nat) : list R :=
  [Spec.gapFraction a j; Spec.maxIdentityFraction a j;
   Spec.distanceFromExtremity a j; Spec.shannonEntropy a j; 0%R; 0%R].

(** The code's two window expressions over a gap-fraction function [g]. *)
Definition code_window1 (g : nat -> R) (L i : nat) : R :=
  let z := Z.of_nat i in
  let n := Z.of_nat L in
  (((if (z >? 0)%Z then g (i - 1)%nat else 0) + g i
    + (if (z <? n - 1)%Z then g (i + 1)%nat else 0))
   / IZR (1 + one_if (z >? 0)%Z + one_if (z <? n - 1)%Z))%R.

Definition code_window2 (g : nat -> R) (L i : nat) : R :=
  let z := Z.of_nat i in
  let n := Z.of_nat L in
  (((if (z >? 1)%Z then g (i - 2)%nat else 0)
    + (if (z >? 0)%Z then g (i - 1)%nat else 0)
    + g i
    + (if (z <? n - 1)%Z then g (i + 1)%nat else 0)
    + (if (z <? n - 2)%Z then g (i + 2)%nat else 0))
   / IZR (1 + two_one_if (z >? 1)%Z (z >? 0)%Z
            + two_one_if (z <? n - 2)%Z (z <? n - 1)%Z))%R.

Definition final_row (a : MultipleSeqAlignment) (j : nat) : list R :=
  [Spec.gapFraction a j; Spec.maxIdentityFraction a j;
   Spec.distanceFromExtremity a j; Spec.shannonEntropy a j;
   code_window1 (Spec.gapFraction a) (get_alignment_length a) j;
   code_window2 (Spec.gapFraction a) (get_alignment_length a) j].

(** Column 0 of an array of [L] rows holds the values of [g]. *)
Definition reads (g : nat -> R) (L : nat) (fm : ndarray) : Prop :=
  forall j, (j < L)%nat -> getitem fm j 0 = Ok (g j).

(** The score the specification gives a feature vector. *)
Definition score_of (self : AliFilterModel.t) (v : list R) : R :=
  Spec.sigmoid (Spec.dot v (AliFilterModel.logisticModelCoefficients self)
                + AliFilterModel.logisticModelIntercept self).

(** The mask entry at column [i] says keep. *)
Definition keep_at (mask : string) (i : nat) : bool :=
  match String.get i mask with
  | Some c => Ascii.eqb c "1"%char
  | None => false
  end.

(** A string without its first character. *)
Definition string_tail (s : string) : string :=
  match s with
  | EmptyString => EmptyString
  | String _ s' => s'
  end.

(** A record with its sequence replaced. *)
Definition with_seq (s : string) (r : SeqRecord) : SeqRecord :=
  mk_SeqRecord s (id r) (name r) (description r) (dbxrefs r) (features r)
               (annotations r) (letter_annotations r).

(** A model whose threshold no score reaches. *)
Definition unreachable_model : AliFilterModel.t :=
  AliFilterModel.mk [0; 0; 1; 0; 0; 0]%R 0%R 2%R.

(** A model that scores a column by its distance from the extremity. *)
Definition distance_model : AliFilterModel.t :=
  AliFilterModel.mk [0; 0; 1; 0; 0; 0]%R 0%R 0.6%R.



(** An array of [L] rows of six entries. *)
Definition shaped (L : nat) (fm : ndarray) : Prop :=
  ncols fm = 6%nat /\ length (rows fm) = L
  /\ Forall (fun r => length r = 6%nat) (rows fm).

(** Row [r] has a character at column [j]. *)
Definition reaches (j : nat) (r : SeqRecord) : Prop :=
  (j < String.length (seq r))%nat.

(** An alignment with every sequence in upper case. *)
Fixpoint upper_string (s : string) : string :=
  match s with
  | EmptyString => EmptyString
  | String c s' => String (upper c) (upper_string s')
  end.

Definition upper_alignment (a : MultipleSeqAlignment) : MultipleSeqAlignment :=
  mk_alignment (map (fun r => with_seq (upper_string (seq r)) r) (records a))
               (get_alignment_length a).

(** A model with another threshold. *)
Definition with_threshold (t : R) (self : AliFilterModel.t) : AliFilterModel.t :=
  AliFilterModel.mk (AliFilterModel.logisticModelCoefficients self)
                    (AliFilterModel.logisticModelIntercept self) t.



(** Every character of every sequence satisfies [P]. *)
Definition every_char (P : ascii -> Prop) (a : MultipleSeqAlignment) : Prop :=
  Forall (fun r => Forall P (list_ascii_of_string (seq r))) (records a).

(** The sequences are 7-bit text. *)
Definition ascii_text (a : MultipleSeqAlignment) : Prop :=
  every_char (fun c => (nat_of_ascii c < 128)%nat) a.

(** No record carries a per-letter annotation. *)
Definition plain_records (a : MultipleSeqAlignment) : Prop :=
  Forall (fun r => letter_annotations r = []) (records a).

Unset Implicit Arguments.

(* ================================================================== *)
(** ** Lists, loops and arrays *)

Section ListFacts.
Context {A : Type}.

Lemma update_length (i : nat) (v : A) (l : list A) :
  length (update i v l) = length l.
Proof.
  revert i; induction l as [|a l IH]; intros [|i]; simpl; auto.
Qed.

Lemma nth_error_update_eq (i : nat) (v : A) (l : list A) :
  (i < length l)%nat -> nth_error (update i v l) i = Some v.
Proof.
  revert i; induction l as [|a l IH]; intros [|i] H; simpl in *; try lia; auto.
  apply IH; lia.
Qed.

Lemma nth_error_update_ne (i j : nat) (v : A) (l : list A) :
  i <> j -> nth_error (update i v l) j = nth_error l j.
Proof.
  revert i j; induction l as [|a l IH]; intros [|i] [|j] H; simpl; auto;
    try congruence.
Qed.

Lemma update_update (i : nat) (v w : A) (l : list A) :
  update i w (update i v l) = update i w l.
Proof.
  revert i; induction l as [|a l IH]; intros [|i]; simpl; auto.
  now rewrite IH.
Qed.

Lemma nth_error_lt_some (l : list A) (i : nat) :
  (i < length l)%nat -> exists a, nth_error l i = Some a.
Proof.
  intros H. destruct (nth_error l i) eqn:E; eauto.
  apply nth_error_None in E. lia.
Qed.

End ListFacts.

Lemma bind_ok {A B} (m : result A) (k : A -> result B) (b : B) :
  bind m k = Ok b -> exists a, m = Ok a /\ k a = Ok b.
Proof. destruct m; simpl; intros H; [eauto | discriminate]. Qed.

Ltac bind_inv H :=
  lazymatch type of H with
  | bind _ _ = Ok _ =>
      let x := fresh "x" in
      let E := fresh "E" in
      apply bind_ok in H; destruct H as (x & E & H)
  end.

Section Loops.
Context {S : Type}.

(** A loop over [range n] whose body keeps an invariant indexed by the number
    of completed iterations runs to the end and establishes it at [n]. *)
Lemma for_in_range_total (P : nat -> S -> Prop) (body : nat -> S -> result S)
  (n : nat) (s0 : S) :
  P 0%nat s0 ->
  (forall i s, (i < n)%nat -> P i s -> exists s', body i s = Ok s' /\ P (Datatypes.S i) s') ->
  exists s', for_in (range n) body s0 = Ok s' /\ P n s'.
Proof.
  intros H0 Hstep. unfold range.
  assert (G : forall m start s, (start + m = n)%nat -> P start s ->
              exists s', for_in (List.seq start m) body s = Ok s' /\ P n s').
  { induction m as [|m IH]; intros start s Hn Hs; simpl.
    - replace n with start by lia. eauto.
    - destruct (Hstep start s) as (s1 & E1 & P1); [lia | assumption |].
      rewrite E1. simpl. apply IH; [lia | assumption]. }
  apply G; [lia | assumption].
Qed.

(** A property every successful iteration preserves holds after the loop. *)
Lemma for_in_preserves {X} (P : S -> Prop) (body : X -> S -> result S)
  (xs : list X) :
  (forall x s s', body x s = Ok s' -> P s -> P s') ->
  forall s s', for_in xs body s = Ok s' -> P s -> P s'.
Proof.
  intros Hb. induction xs as [|x xs IH]; simpl; intros s s' H Hs.
  - congruence.
  - bind_inv H. eapply IH; eauto.
Qed.

End Loops.

Lemma index_some {A} (l : list A) (i : nat) (a : A) :
  nth_error l i = Some a -> index l i = Ok a.
Proof. unfold index. now intros ->. Qed.

Lemma setitem_eq (fm : ndarray) (i j : nat) (v : R) (r : list R) :
  nth_error (rows fm) i = Some r -> (j < length r)%nat ->
  setitem fm i j v = Ok (mk_ndarray (ncols fm) (update i (update j v r) (rows fm))).
Proof.
  intros Hr Hj. unfold setitem. rewrite (index_some _ _ _ Hr). simpl.
  apply Nat.ltb_lt in Hj. now rewrite Hj.
Qed.

Lemma getitem_eq (fm : ndarray) (i j : nat) (r : list R) (x : R) :
  nth_error (rows fm) i = Some r -> nth_error r j = Some x ->
  getitem fm i j = Ok x.
Proof.
  intros Hr Hx. unfold getitem. rewrite (index_some _ _ _ Hr). simpl.
  now apply index_some.
Qed.

(** [setitem] keeps the shape of the array. *)
Lemma setitem_shape (fm fm' : ndarray) (i j : nat) (v : R) :
  setitem fm i j v = Ok fm' ->
  ncols fm' = ncols fm /\ length (rows fm') = length (rows fm).
Proof.
  unfold setitem. intros H. bind_inv H.
  destruct (j <? length x)%nat; [|discriminate].
  injection H as <-. simpl. now rewrite update_length.
Qed.

(* ================================================================== *)
(** ** The row loop: what the three accumulators hold *)

Lemma same_class_all (c : ascii) : same_class c = true.
Proof.
  destruct c as [[] [] [] [] [] [] [] []]; vm_compute; reflexivity.
Qed.

Lemma counted_letter_lt (c : ascii) (k : nat) :
  counted_letter c = Some k -> (k < 26)%nat.
Proof.
  intros H. pose proof (same_class_all c) as S. unfold same_class in S.
  rewrite H in S. apply andb_true_iff in S as [_ S]. now apply Nat.ltb_lt.
Qed.

Lemma is_letter_counted (c : ascii) (k : nat) :
  (k < 26)%nat ->
  Spec.is_letter k c =
  match counted_letter c with Some k0 => (k =? k0)%nat | None => false end.
Proof.
  intros Hk. pose proof (same_class_all c) as S. unfold same_class in S.
  apply andb_true_iff in S as [S _]. apply andb_true_iff in S as [S _].
  rewrite forallb_forall in S.
  apply eqb_prop, S. unfold Spec.alphabet. apply in_seq. lia.
Qed.

Lemma is_valid_counted (c : ascii) :
  Spec.is_valid c =
  match counted_letter c with Some _ => true | None => false end.
Proof.
  pose proof (same_class_all c) as S. unfold same_class in S.
  apply andb_true_iff in S as [S _]. apply andb_true_iff in S as [_ S].
  now apply eqb_prop.
Qed.

Lemma count_char_cases (c : ascii) (t : tally) :
  count_char c t =
  if Spec.is_gap c
  then mk_tally (gapCount t + 1) (counts t) (validChars t)
  else match counted_letter c with
       | Some k => mk_tally (gapCount t)
                            (update k (nth k (counts t) 0%Z + 1)%Z (counts t))
                            (validChars t + 1)
       | None => t
       end.
Proof.
  unfold count_char, counted_letter, Spec.is_gap.
  destruct (Ascii.eqb c "-"); [reflexivity|].
  now destruct ((65 <=? ord (upper c)) && (ord (upper c) <=? 90))%Z.
Qed.

Lemma gap_not_counted (c : ascii) :
  Spec.is_gap c = true -> counted_letter c = None.
Proof. unfold Spec.is_gap, counted_letter. now intros ->. Qed.

Lemma count_cons (p : ascii -> bool) (c : ascii) (cs : list ascii) :
  Spec.count p (c :: cs) = ((if p c then 1 else 0) + Spec.count p cs)%nat.
Proof. unfold Spec.count. simpl. now destruct (p c). Qed.

Lemma nth_update {A} (j k : nat) (v d : A) (l : list A) :
  (j < length l)%nat ->
  nth k (update j v l) d = if (k =? j)%nat then v else nth k l d.
Proof.
  revert j k; induction l as [|a l IH]; intros [|j] [|k] H; simpl in *;
    try lia; auto.
  apply IH. lia.
Qed.

Lemma tally_from_spec (cs : list ascii) : forall t : tally,
  length (counts t) = 26%nat ->
  gapCount (tally_from t cs) = (gapCount t + Z.of_nat (Spec.gapCount cs))%Z /\
  validChars (tally_from t cs) = (validChars t + Z.of_nat (Spec.validChars cs))%Z /\
  length (counts (tally_from t cs)) = 26%nat /\
  forall k, (k < 26)%nat ->
    nth k (counts (tally_from t cs)) 0%Z
    = (nth k (counts t) 0 + Z.of_nat (Spec.letterCount cs k))%Z.
Proof.
  induction cs as [|c cs IH]; intros t Ht.
  - simpl. unfold Spec.gapCount, Spec.validChars, Spec.letterCount, Spec.count.
    simpl. repeat split; intros; lia.
  - unfold tally_from in *. simpl. rewrite count_char_cases.
    unfold Spec.gapCount, Spec.validChars, Spec.letterCount in *.
    rewrite !count_cons. rewrite is_valid_counted.
    destruct (Spec.is_gap c) eqn:G.
    + rewrite (gap_not_counted _ G).
      destruct (IH (mk_tally (gapCount t + 1) (counts t) (validChars t)) Ht)
        as (I1 & I2 & I3 & I4).
      simpl in *. repeat split; try lia.
      intros k Hk. rewrite I4 by assumption. rewrite count_cons.
      rewrite is_letter_counted by assumption.
      rewrite (gap_not_counted _ G). lia.
    + destruct (counted_letter c) as [k0|] eqn:K.
      * pose proof (counted_letter_lt _ _ K) as Hk0.
        destruct (IH (mk_tally (gapCount t)
                        (update k0 (nth k0 (counts t) 0 + 1)%Z (counts t))
                        (validChars t + 1)))
          as (I1 & I2 & I3 & I4).
        { simpl. now rewrite update_length. }
        simpl in *. repeat split; try lia.
        intros k Hk. rewrite I4 by assumption. rewrite count_cons.
        rewrite is_letter_counted by assumption. rewrite K.
        rewrite nth_update by lia.
        destruct (k =? k0)%nat eqn:E.
        -- apply Nat.eqb_eq in E. subst. lia.
        -- lia.
      * destruct (IH t Ht) as (I1 & I2 & I3 & I4).
        repeat split; try lia.
        intros k Hk. rewrite I4 by assumption. rewrite count_cons.
        rewrite is_letter_counted by assumption. rewrite K. lia.
Qed.

(** After the row loop the counters are the letter counts of the column. *)
Lemma tally_counts (cs : list ascii) :
  counts (tally_from tally0 cs)
  = map (fun k => Z.of_nat (Spec.letterCount cs k)) Spec.alphabet.
Proof.
  destruct (tally_from_spec cs tally0 eq_refl) as (_ & _ & L & N).
  apply nth_ext with (d := 0%Z) (d' := 0%Z).
  - rewrite L. unfold Spec.alphabet. now rewrite length_map, length_seq.
  - intros k Hk. rewrite L in Hk. rewrite N by assumption.
    change (counts tally0) with (repeat 0%Z 26). rewrite nth_repeat.
    unfold Spec.alphabet.
    rewrite nth_indep with (d' := Z.of_nat (Spec.letterCount cs 0))
      by (now rewrite length_map, length_seq).
    rewrite (map_nth (fun k => Z.of_nat (Spec.letterCount cs k))).
    rewrite seq_nth by assumption. simpl. reflexivity.
Qed.

Lemma tally_gapCount (cs : list ascii) :
  gapCount (tally_from tally0 cs) = Z.of_nat (Spec.gapCount cs).
Proof. now destruct (tally_from_spec cs tally0 eq_refl) as (-> & _). Qed.

Lemma tally_validChars (cs : list ascii) :
  validChars (tally_from tally0 cs) = Z.of_nat (Spec.validChars cs).
Proof. now destruct (tally_from_spec cs tally0 eq_refl) as (_ & -> & _). Qed.

Lemma string_get_lt (s : string) : forall n,
  (n < String.length s)%nat -> exists c, String.get n s = Some c.
Proof.
  induction s as [|c s IH]; intros [|n] H; simpl in *; try lia; eauto.
  apply IH. lia.
Qed.

(** The row loop reads the column from top to bottom. *)
Lemma row_loop (a : MultipleSeqAlignment) (col : nat) (t : tally) :
  Forall (fun r => (col < String.length (seq r))%nat) (records a) ->
  for_in (range (len a))
    (fun i t => c <- char_at a i col ;; Ok (count_char c t)) t
  = Ok (tally_from t (Spec.column a col)).
Proof.
  intros Hall. unfold range, len, Spec.column.
  assert (G : forall rs pre t,
             records a = pre ++ rs ->
             Forall (fun r => (col < String.length (seq r))%nat) rs ->
             for_in (List.seq (length pre) (length rs))
               (fun i t => c <- char_at a i col ;; Ok (count_char c t)) t
             = Ok (tally_from t
                     (flat_map (fun r => match String.get col (seq r) with
                                         | Some c => [c]
                                         | None => []
                                         end) rs))).
  { induction rs as [|r rs IH]; intros pre t0 Hrec Hrs.
    - reflexivity.
    - inversion Hrs as [|? ? Hr Hrs']; subst.
      destruct (string_get_lt _ _ Hr) as (c & Hc).
      cbn [length List.seq for_in flat_map]. rewrite Hc.
      unfold char_at at 1. unfold index. rewrite Hrec.
      rewrite nth_error_app2 by lia. rewrite Nat.sub_diag. cbn [nth_error bind].
      unfold str_index. rewrite Hc. cbn [bind].
      specialize (IH (pre ++ [r]) (count_char c t0)).
      rewrite length_app in IH. cbn [length] in IH.
      rewrite Nat.add_1_r in IH. rewrite IH; auto.
      rewrite <- app_assoc. exact Hrec. }
  apply (G (records a) [] t); auto.
Qed.

(* ================================================================== *)
(** ** Sums, maxima and the entropy *)

Lemma fold_left_Rplus (l : list R) : forall x : R,
  fold_left Rplus l x = (x + Spec.total l)%R.
Proof.
  induction l as [|y l IH]; intros x; simpl.
  - lra.
  - rewrite IH. lra.
Qed.

Lemma sum_total (l : list R) : Py.sum l = Spec.total l.
Proof. unfold Py.sum. rewrite fold_left_Rplus. lra. Qed.

Lemma fold_left_Zmax (l : list nat) : forall x : nat,
  fold_left Z.max (map Z.of_nat l) (Z.of_nat x)
  = Z.of_nat (Nat.max x (list_max l)).
Proof.
  induction l as [|y l IH]; intros x; simpl.
  - now rewrite Nat.max_0_r.
  - rewrite <- Nat2Z.inj_max, IH. f_equal. lia.
Qed.

Lemma max_of_nats (l : list nat) :
  l <> [] -> Py.max (map Z.of_nat l) = Ok (Z.of_nat (list_max l)).
Proof.
  destruct l as [|x l]; [congruence|]. intros _. simpl.
  now rewrite fold_left_Zmax.
Qed.

(** The code's sum of entropy terms is the entropy of the specification. *)
Lemma entropy_terms (counts_of : nat -> nat) (v : nat) (ks : list nat) :
  Spec.total (map (fun k => entropy_term (Z.of_nat v) (Z.of_nat (counts_of k))) ks)
  = (- Spec.total
        (map (fun k => let p := INR (counts_of k) / INR v in p * ln p)
             (List.filter (fun k => negb (counts_of k =? 0)%nat) ks)))%R.
Proof.
  induction ks as [|k ks IH]; simpl.
  - lra.
  - rewrite IH. unfold entropy_term.
    destruct (counts_of k =? 0)%nat eqn:E.
    + apply Nat.eqb_eq in E. rewrite E. simpl. lra.
    + apply Nat.eqb_neq in E.
      destruct (Z.of_nat (counts_of k) <=? 0)%Z eqn:E'.
      * apply Z.leb_le in E'. lia.
      * simpl. rewrite <- !INR_IZR_INZ. unfold Rdiv. lra.
Qed.

(* ================================================================== *)
(** ** One column of the first pass *)

Lemma setitem_again (n : nat) (rs : list (list R)) (i j : nat) (v : R)
  (r : list R) :
  (i < length rs)%nat -> (j < length r)%nat ->
  setitem (mk_ndarray n (update i r rs)) i j v
  = Ok (mk_ndarray n (update i (update j v r) rs)).
Proof.
  intros Hi Hj.
  rewrite setitem_eq with (r := r); simpl; auto.
  - now rewrite update_update.
  - now apply nth_error_update_eq.
Qed.

Lemma rectangular_reaches (a : MultipleSeqAlignment) (j : nat) :
  rectangular a -> (j < get_alignment_length a)%nat ->
  Forall (fun r => (j < String.length (seq r))%nat) (records a).
Proof.
  unfold rectangular. intros H Hj. eapply Forall_impl; [|exact H].
  simpl. intros r Hr. lia.
Qed.

Lemma letterCounts_nonempty (cs : list ascii) : Spec.letterCounts cs <> [].
Proof. unfold Spec.letterCounts, Spec.alphabet. simpl. discriminate. Qed.

(** On a rectangular alignment with at least one row, the extractor writes
    the four base features of the specification into row [j] and leaves the
    rest of the matrix as it was. *)
Lemma compute_column_spec (a : MultipleSeqAlignment) (j : nat) (fm : ndarray)
  (r : list R) :
  rectangular a -> (0 < len a)%nat -> (j < get_alignment_length a)%nat ->
  nth_error (rows fm) j = Some r -> (4 <= length r)%nat ->
  __alifilter_computeColumnFeatures a j fm
  = Ok (mk_ndarray (ncols fm) (update j (base_row a j r) (rows fm))).
Proof.
  intros Hrect Hlen Hj Hr Hr4.
  assert (Hjr : (j < length (rows fm))%nat)
    by (apply nth_error_Some; congruence).
  unfold __alifilter_computeColumnFeatures.
  rewrite row_loop by (now apply rectangular_reaches).
  cbn [bind]. fold (tally_from tally0 (Spec.column a j)).
  rewrite tally_gapCount, tally_validChars, tally_counts.
  unfold truediv.
  replace (Z.of_nat (len a) =? 0)%Z with false
    by (symmetry; apply Z.eqb_neq; lia).
  cbn [bind].
  rewrite setitem_eq with (r := r) by (auto; lia). cbn [bind].
  unfold base_row, Spec.maxIdentityFraction, Spec.shannonEntropy,
    Spec.gapFraction, Spec.distanceFromExtremity.
  rewrite <- !INR_IZR_INZ.
  destruct (Spec.validChars (Spec.column a j)) as [|v] eqn:V.
  - change (Z.of_nat 0 >? 0)%Z with false. cbn iota.
    rewrite setitem_again by (rewrite ?update_length; lia). cbn [bind].
    rewrite setitem_again by (rewrite ?update_length; lia). cbn [bind].
    rewrite setitem_again by (rewrite ?update_length; lia).
    reflexivity.
  - replace (Z.of_nat (S v) >? 0)%Z with true
      by (symmetry; apply Z.gtb_lt; lia).
    replace (map (fun k => Z.of_nat (Spec.letterCount (Spec.column a j) k))
               Spec.alphabet)
      with (map Z.of_nat (Spec.letterCounts (Spec.column a j)))
      by (unfold Spec.letterCounts; now rewrite map_map).
    rewrite max_of_nats by apply letterCounts_nonempty. cbn [bind].
    rewrite setitem_again by (rewrite ?update_length; lia). cbn [bind].
    rewrite setitem_again by (rewrite ?update_length; lia). cbn [bind].
    rewrite setitem_again by (rewrite ?update_length; lia).
    rewrite sum_total. unfold Spec.letterCounts. rewrite !map_map.
    rewrite (entropy_terms (Spec.letterCount (Spec.column a j)) (S v)).
    rewrite <- !INR_IZR_INZ.
    reflexivity.
Qed.

(* ================================================================== *)
(** ** The two passes of [__alifilter_getAlignmentFeatures] *)

Lemma first_pass_spec (a : MultipleSeqAlignment) :
  rectangular a ->
  ((0 < get_alignment_length a)%nat -> (0 < len a)%nat) ->
  exists fm,
    for_in (range (get_alignment_length a))
      (fun i fm => __alifilter_computeColumnFeatures a i fm)
      (zeros (get_alignment_length a) 6) = Ok fm
    /\ ncols fm = 6%nat
    /\ length (rows fm) = get_alignment_length a
    /\ forall j, (j < get_alignment_length a)%nat ->
         nth_error (rows fm) j = Some (first_pass_row a j).
Proof.
  intros Hrect Hlen. set (L := get_alignment_length a) in *.
  destruct (for_in_range_total
              (fun k fm =>
                 ncols fm = 6%nat /\ length (rows fm) = L /\
                 forall j, (j < L)%nat ->
                   nth_error (rows fm) j
                   = Some (if (j <? k)%nat then first_pass_row a j
                           else repeat 0%R 6))
              (fun i fm => __alifilter_computeColumnFeatures a i fm)
              L (zeros L 6)) as (fm & E & C & N & Hrows).
  - unfold zeros; simpl. rewrite repeat_length. repeat split; auto.
    intros j Hj. now apply nth_error_repeat.
  - intros i fm Hi (C & N & Hrows).
    exists (mk_ndarray (ncols fm)
              (update i (base_row a i (repeat 0%R 6)) (rows fm))).
    split.
    + apply compute_column_spec; auto; try (apply Hlen; lia).
      * rewrite (Hrows i Hi). now rewrite Nat.ltb_irrefl.
      * simpl. lia.
    + simpl. rewrite update_length. repeat split; auto.
      intros j Hj. destruct (Nat.eq_dec i j) as [<-|Hne].
      * rewrite nth_error_update_eq by lia.
        replace (i <? S i)%nat with true by (symmetry; apply Nat.ltb_lt; lia).
        reflexivity.
      * rewrite nth_error_update_ne by assumption. rewrite (Hrows j Hj).
        destruct (j <? i)%nat eqn:E1.
        -- apply Nat.ltb_lt in E1.
           now replace (j <? S i)%nat with true
             by (symmetry; apply Nat.ltb_lt; lia).
        -- apply Nat.ltb_ge in E1.
           now replace (j <? S i)%nat with false
             by (symmetry; apply Nat.ltb_ge; lia).
  - exists fm. repeat split; auto.
    intros j Hj. rewrite (Hrows j Hj).
    now replace (j <? L)%nat with true by (symmetry; apply Nat.ltb_lt; lia).
Qed.

Lemma read_if_reads (g : nat -> R) (L : nat) (fm : ndarray) (c : bool) (j : nat) :
  reads g L fm -> (c = true -> (j < L)%nat) ->
  read_if c fm j = Ok (if c then g j else 0%R).
Proof.
  intros Hg Hc. unfold read_if. destruct c; auto.
Qed.

Lemma reads_rows (g : nat -> R) (L n : nat) (rs : list (list R)) :
  (forall j, (j < L)%nat ->
     exists r, nth_error rs j = Some r /\ nth_error r 0 = Some (g j)) ->
  reads g L (mk_ndarray n rs).
Proof.
  intros H j Hj. destruct (H j Hj) as (r & Hr & H0).
  now apply getitem_eq with (r := r).
Qed.

(** One iteration of the smoothing loop. *)
Lemma smooth_column_spec (a : MultipleSeqAlignment) (i : nat) (fm : ndarray) :
  let L := get_alignment_length a in
  (i < L)%nat ->
  length (rows fm) = L ->
  (forall j, (j < L)%nat ->
     nth_error (rows fm) j
     = Some (if (j <? i)%nat then final_row a j else first_pass_row a j)) ->
  smooth_column L i fm
  = Ok (mk_ndarray (ncols fm) (update i (final_row a i) (rows fm))).
Proof.
  intros L Hi N Hrows.
  set (g := Spec.gapFraction a).
  assert (Hi_row : nth_error (rows fm) i = Some (first_pass_row a i)).
  { rewrite (Hrows i Hi). now rewrite Nat.ltb_irrefl. }
  assert (R0 : reads g L fm).
  { destruct fm as [n rs]. apply reads_rows. intros j Hj. simpl in Hrows.
    rewrite (Hrows j Hj). destruct (j <? i)%nat; eexists; split; reflexivity. }
  assert (Hlo1 : (Z.of_nat i >? 0)%Z = true -> (i - 1 < L)%nat) by (intros; lia).
  assert (Hlo2 : (Z.of_nat i >? 1)%Z = true -> (i - 2 < L)%nat) by (intros; lia).
  assert (Hhi1 : (Z.of_nat i <? Z.of_nat L - 1)%Z = true -> (i + 1 < L)%nat).
  { intros H. apply Z.ltb_lt in H. lia. }
  assert (Hhi2 : (Z.of_nat i <? Z.of_nat L - 2)%Z = true -> (i + 2 < L)%nat).
  { intros H. apply Z.ltb_lt in H. lia. }
  unfold smooth_column.
  rewrite (read_if_reads g L _ _ _ R0 Hlo1). cbn [bind].
  rewrite (R0 i Hi). cbn [bind].
  rewrite (read_if_reads g L _ _ _ R0 Hhi1). cbn [bind].
  rewrite setitem_eq with (r := first_pass_row a i) by (auto; simpl; lia).
  cbn [bind].
  match goal with
  | |- context [update i ?r' (rows fm)] =>
      assert (R1 : reads g L (mk_ndarray (ncols fm) (update i r' (rows fm))))
  end.
  { apply reads_rows. intros j Hj. destruct (Nat.eq_dec i j) as [<-|Hne].
    - rewrite nth_error_update_eq by lia. eexists; split; reflexivity.
    - rewrite nth_error_update_ne by assumption. rewrite (Hrows j Hj).
      destruct (j <? i)%nat; eexists; split; reflexivity. }
  rewrite (read_if_reads g L _ _ _ R1 Hlo2). cbn [bind].
  rewrite (read_if_reads g L _ _ _ R1 Hlo1). cbn [bind].
  rewrite (R1 i Hi). cbn [bind].
  rewrite (read_if_reads g L _ _ _ R1 Hhi1). cbn [bind].
  rewrite (read_if_reads g L _ _ _ R1 Hhi2). cbn [bind].
  rewrite setitem_again by (simpl; lia).
  reflexivity.
Qed.

Lemma second_pass_spec (a : MultipleSeqAlignment) (fm : ndarray) :
  let L := get_alignment_length a in
  ncols fm = 6%nat ->
  length (rows fm) = L ->
  (forall j, (j < L)%nat -> nth_error (rows fm) j = Some (first_pass_row a j)) ->
  exists fm',
    for_in (range L) (smooth_column L) fm = Ok fm'
    /\ ncols fm' = 6%nat
    /\ length (rows fm') = L
    /\ forall j, (j < L)%nat -> nth_error (rows fm') j = Some (final_row a j).
Proof.
  intros L C N Hrows.
  destruct (for_in_range_total
              (fun k fm =>
                 ncols fm = 6%nat /\ length (rows fm) = L /\
                 forall j, (j < L)%nat ->
                   nth_error (rows fm) j
                   = Some (if (j <? k)%nat then final_row a j
                           else first_pass_row a j))
              (smooth_column L) L fm) as (fm' & E & C' & N' & Hrows').
  - repeat split; auto.
  - intros i fm0 Hi (C0 & N0 & H0).
    exists (mk_ndarray (ncols fm0) (update i (final_row a i) (rows fm0))).
    split; [now apply smooth_column_spec|].
    simpl. rewrite update_length. repeat split; auto.
    intros j Hj. destruct (Nat.eq_dec i j) as [<-|Hne].
    + rewrite nth_error_update_eq by lia.
      now replace (i <? S i)%nat with true by (symmetry; apply Nat.ltb_lt; lia).
    + rewrite nth_error_update_ne by assumption. rewrite (H0 j Hj).
      destruct (j <? i)%nat eqn:E1.
      * apply Nat.ltb_lt in E1.
        now replace (j <? S i)%nat with true
          by (symmetry; apply Nat.ltb_lt; lia).
      * apply Nat.ltb_ge in E1.
        now replace (j <? S i)%nat with false
          by (symmetry; apply Nat.ltb_ge; lia).
  - exists fm'. repeat split; auto.
    intros j Hj. rewrite (Hrows' j Hj).
    now replace (j <? L)%nat with true by (symmetry; apply Nat.ltb_lt; lia).
Qed.

(** The feature matrix of a rectangular alignment, row by row. *)
Lemma features_closed_form (a : MultipleSeqAlignment) :
  rectangular a ->
  ((0 < get_alignment_length a)%nat -> (0 < len a)%nat) ->
  exists F,
    __alifilter_getAlignmentFeatures a = Ok F
    /\ ncols F = 6%nat
    /\ length (rows F) = get_alignment_length a
    /\ forall j, (j < get_alignment_length a)%nat ->
         nth_error (rows F) j = Some (final_row a j).
Proof.
  intros Hrect Hlen.
  destruct (first_pass_spec a Hrect Hlen) as (fm & E & C & N & Hrows).
  destruct (second_pass_spec a fm C N Hrows) as (F & E' & HF).
  exists F. split; [|exact HF].
  unfold __alifilter_getAlignmentFeatures. rewrite E. exact E'.
Qed.

(* ================================================================== *)
(** ** The windows: the code's guarded sums are averages over the
       existing neighbours *)

Lemma filter_nothing {A} (p : A -> bool) (l : list A) :
  (forall x, In x l -> p x = false) -> List.filter p l = [].
Proof.
  induction l as [|x l IH]; simpl; intros H; auto.
  rewrite (H x) by auto. apply IH. auto.
Qed.

Lemma filter_everything {A} (p : A -> bool) (l : list A) :
  (forall x, In x l -> p x = true) -> List.filter p l = l.
Proof.
  induction l as [|x l IH]; simpl; intros H; auto.
  rewrite (H x) by auto. f_equal. apply IH. auto.
Qed.







Lemma getitem_final_row (a : MultipleSeqAlignment) (F : ndarray) (i k : nat)
  (x : R) :
  nth_error (rows F) i = Some (final_row a i) ->
  nth_error (final_row a i) k = Some x ->
  getitem F i k = Ok x.
Proof. intros. now apply getitem_eq with (r := final_row a i). Qed.

(* ================================================================== *)
(** ** Feature extraction: the claims *)


(** On a rectangular alignment of 7-bit text with at least one sequence, for
    every column [i] the extractor writes gapCount/numSequences,
    max(letterCounts)/numSequences (0 without valid characters), the
    distance min(i, numColumns-1-i) and the entropy -sum(p ln p) over the
    letters present (0 without valid characters), where the counts are those
    of the specification: ['-'] is a gap, a character that is a letter in
    either case counts for that letter, anything else counts for nothing.
    This holds for the extractor run on any matrix whose row [i] has six
    entries, and for the matrix the builder returns. *)
Lemma extractor_base_features (a : MultipleSeqAlignment) (i : nat) :
  rectangular a -> (0 < len a)%nat -> (i < get_alignment_length a)%nat ->
  (forall fm r,
     nth_error (rows fm) i = Some r -> length r = 6%nat ->
     exists fm',
       __alifilter_computeColumnFeatures a i fm = Ok fm'
       /\ getitem fm' i 0 = Ok (Spec.gapFraction a i)
       /\ getitem fm' i 1 = Ok (Spec.maxIdentityFraction a i)
       /\ getitem fm' i 2 = Ok (Spec.distanceFromExtremity a i)
       /\ getitem fm' i 3 = Ok (Spec.shannonEntropy a i))
  /\ exists F,
       __alifilter_getAlignmentFeatures a = Ok F
       /\ getitem F i 0 = Ok (Spec.gapFraction a i)
       /\ getitem F i 1 = Ok (Spec.maxIdentityFraction a i)
       /\ getitem F i 2 = Ok (Spec.distanceFromExtremity a i)
       /\ getitem F i 3 = Ok (Spec.shannonEntropy a i).
Proof.
  intros Hrect Hlen Hi. split.
  - intros fm r Hr H6.
    assert (Hjr : (i < length (rows fm))%nat)
      by (apply nth_error_Some; congruence).
    eexists. split.
    + apply compute_column_spec with (r := r); auto. lia.
    + destruct r as [|r0 [|r1 [|r2 [|r3 [|r4 [|r5 [|]]]]]]]; try discriminate.
      repeat split;
        (eapply getitem_eq;
         [simpl; apply nth_error_update_eq; assumption | reflexivity]).
  - destruct (features_closed_form a Hrect (fun _ => Hlen))
      as (F & E & C & N & Hrows).
    exists F. repeat split; auto;
      apply getitem_final_row with (a := a); auto.
Qed.

Lemma sample_rectangular : rectangular (alignment_of ["A-A"; "aXA"]%string 3).
Proof. repeat constructor. Qed.


(* ================================================================== *)
(** ** Scores *)

Lemma dot1_dot (v c : list R) : dot1 v c = Spec.dot v c.
Proof. unfold dot1, Spec.dot. apply sum_total. Qed.

Lemma logistic_sigmoid (self : AliFilterModel.t) (x : R) :
  AliFilterModel.logistic self x
  = Spec.sigmoid (x + AliFilterModel.logisticModelIntercept self).
Proof. reflexivity. Qed.

Lemma squeeze_iter (col : list R) :
  length col <> 1%nat -> iter (squeeze col) = Ok col.
Proof.
  destruct col as [|x [|y col]]; simpl; intros H; auto. congruence.
Qed.

Lemma squeeze_iter_single (col : list R) :
  length col = 1%nat -> iter (squeeze col) = Err TypeError.
Proof.
  destruct col as [|x [|y col]]; simpl; intros H; auto; discriminate.
Qed.

(** Any matrix but a single-row one is scored row by row. *)
Lemma getScores_rows (self : AliFilterModel.t) (F : ndarray) :
  ncols F = length (AliFilterModel.logisticModelCoefficients self) ->
  length (rows F) <> 1%nat ->
  AliFilterModel.getScores self F = Ok (map (score_of self) (rows F)).
Proof.
  intros Hc Hn. unfold AliFilterModel.getScores, dot.
  apply Nat.eqb_eq in Hc. rewrite Hc. cbn [bind].
  rewrite squeeze_iter by (now rewrite length_map). cbn [bind].
  rewrite map_map. f_equal. apply map_ext. intros v.
  rewrite logistic_sigmoid, dot1_dot. reflexivity.
Qed.

(** Whatever [getScores] returns is the row-by-row scoring. *)
Lemma getScores_ok (self : AliFilterModel.t) (F : ndarray) (scores : list R) :
  AliFilterModel.getScores self F = Ok scores ->
  scores = map (score_of self) (rows F)
  /\ ncols F = length (AliFilterModel.logisticModelCoefficients self)
  /\ length (rows F) <> 1%nat.
Proof.
  intros H.
  destruct (Nat.eq_dec (ncols F)
              (length (AliFilterModel.logisticModelCoefficients self)))
    as [Hc|Hc].
  - destruct (Nat.eq_dec (length (rows F)) 1) as [H1|H1].
    + exfalso. unfold AliFilterModel.getScores, dot in H.
      apply Nat.eqb_eq in Hc. rewrite Hc in H. cbn [bind] in H.
      rewrite squeeze_iter_single in H by (now rewrite length_map).
      discriminate.
    + rewrite getScores_rows in H by assumption.
      injection H as <-. auto.
  - exfalso. unfold AliFilterModel.getScores, dot in H.
    apply Nat.eqb_neq in Hc. rewrite Hc in H. discriminate.
Qed.

(** C1, at the failing input.  A feature matrix with exactly one row, of the
    width the model expects, is not scored: the product with the coefficient
    column has shape (1, 1), [numpy.squeeze] reduces it to a 0-dimensional
    array, and [map] cannot iterate over it. *)
Theorem getScores_single_row (self : AliFilterModel.t) (v : list R) :
  AliFilterModel.getScores self
    (mk_ndarray (length (AliFilterModel.logisticModelCoefficients self)) [v])
  = Err TypeError.
Proof.
  unfold AliFilterModel.getScores, dot. simpl ncols.
  rewrite Nat.eqb_refl. reflexivity.
Qed.

(** The same on the matrix of a one-column alignment with the six
    coefficients of a model file. *)
Example one_row_matrix_example :
  AliFilterModel.getScores zero_model (mk_ndarray 6 [[0; 1; 0; 0; 0; 0]%R])
  = Err TypeError.
Proof. reflexivity. Qed.

(* ================================================================== *)
(** ** The mask *)

Lemma get_string_of_list (l : list ascii) : forall i,
  String.get i (string_of_list_ascii l) = nth_error l i.
Proof.
  induction l as [|c l IH]; intros [|i]; simpl; auto.
Qed.

Lemma length_string_of_list (l : list ascii) :
  String.length (string_of_list_ascii l) = length l.
Proof. induction l; simpl; auto. Qed.

Lemma ge_true (x y : R) : Py.ge x y = true <-> (x >= y)%R.
Proof.
  unfold Py.ge. destruct (Rge_dec x y); split; intros; auto; discriminate.
Qed.

Lemma mask_char_one (self : AliFilterModel.t) (x : R) :
  AliFilterModel.mask_char self x = "1"%char
  <-> (x >= AliFilterModel.threshold self)%R.
Proof.
  unfold AliFilterModel.mask_char. rewrite <- ge_true.
  destruct (Py.ge x (AliFilterModel.threshold self)); split; intros;
    auto; discriminate.
Qed.

Lemma sigmoid_zero : Spec.sigmoid 0 = 0.5%R.
Proof. unfold Spec.sigmoid. rewrite Ropp_0, exp_0. lra. Qed.

Lemma dot_zeros (v c : list R) :
  Forall (fun x => x = 0%R) c -> Spec.dot v c = 0%R.
Proof.
  intros H. revert v. induction H as [|x c Hx Hc IH]; intros [|y v];
    unfold Spec.dot in *; simpl; auto.
  rewrite IH. subst. lra.
Qed.

(** The mask has one character per score, the [i]-th being ['1'] exactly
    when [scores[i] >= threshold], and ['0'] otherwise. *)
Lemma getMaskFromScores_entries (self : AliFilterModel.t) (scores : list R) :
  String.length (AliFilterModel.getMaskFromScores self scores) = length scores
  /\ (forall i x, nth_error scores i = Some x ->
        (String.get i (AliFilterModel.getMaskFromScores self scores)
         = Some "1"%char
         <-> (x >= AliFilterModel.threshold self)%R)
        /\ (String.get i (AliFilterModel.getMaskFromScores self scores)
            = Some "0"%char
            <-> (x < AliFilterModel.threshold self)%R)).
Proof.
  split.
  - unfold AliFilterModel.getMaskFromScores, join.
    now rewrite length_string_of_list, length_map.
  - intros i x Hx.
    unfold AliFilterModel.getMaskFromScores, join.
    rewrite get_string_of_list, nth_error_map, Hx. simpl.
    unfold AliFilterModel.mask_char.
    destruct (Py.ge x (AliFilterModel.threshold self)) eqn:G.
    + apply ge_true in G. split; split; intros; auto; try discriminate; lra.
    + assert (~ (x >= AliFilterModel.threshold self)%R)
        by (intros C; apply ge_true in C; congruence).
      split; split; intros; auto; try discriminate; try lra.
Qed.

(** A configuration with its three fields is loaded, with the threshold of
    the file or 0.5 without one. *)
Lemma init_loads (cfg : ModelJson) (lm : LogisticModelJson) (cs : list R)
  (b : R) :
  LogisticModel cfg = Some lm -> Coefficients lm = Some cs ->
  Intercept lm = Some b ->
  AliFilterModel.__init__ cfg
  = Ok (AliFilterModel.mk cs b
          (match FastThreshold cfg with Some th => th | None => 0.5%R end)).
Proof.
  intros H1 H2 H3. unfold AliFilterModel.__init__.
  rewrite H1. simpl. rewrite H2, H3. reflexivity.
Qed.

(** C5, at the failing input.  The model file with six coefficients 0,
    intercept 0 and no ['FastThreshold'] is loaded with the threshold 0.5,
    and the model does not give the single column of a one-column alignment
    the score 0.5 and the mask ["1"]: on a feature matrix of one row, and on
    the alignment of the rows ["A"] and ["C"], the scores are not computed
    and [TypeError] is raised. *)
Theorem zero_model_single_column :
  AliFilterModel.__init__ zero_configuration = Ok zero_model
  /\ AliFilterModel.threshold zero_model = 0.5%R
  /\ rectangular (alignment_of ["A"; "C"]%string 1)
  /\ (forall v, AliFilterModel.getScores zero_model (mk_ndarray 6 [v])
                = Err TypeError)
  /\ (forall v, AliFilterModel.getMaskFromFeatures zero_model (mk_ndarray 6 [v])
                = Err TypeError)
  /\ AliFilterModel.getMask zero_model (alignment_of ["A"; "C"]%string 1)
     = Err TypeError.
Proof.
  split; [reflexivity|]. split; [reflexivity|].
  split; [repeat constructor|].
  split; [intros v; reflexivity|]. split; [intros v; reflexivity|].
  vm_compute. reflexivity.
Qed.

(* ================================================================== *)
(** ** Model construction *)

(** C6 as stated fails: a configuration with five coefficients is loaded
    without any error, and a configuration without intercept fails with
    [KeyError], not with a [ConfigurationError]. *)
Lemma malformed_configuration_counterexample :
  Spec.malformed five_coefficients
  /\ AliFilterModel.__init__ five_coefficients
     = Ok (AliFilterModel.mk [1; 2; 3; 4; 5]%R 0%R 0.5%R)
  /\ Spec.malformed no_intercept
  /\ AliFilterModel.__init__ no_intercept = Err KeyError
  /\ ~ (forall cfg, Spec.malformed cfg ->
          AliFilterModel.__init__ cfg = Err ConfigurationError).
Proof.
  assert (M5 : Spec.malformed five_coefficients).
  { right. eexists. eexists. repeat split; try reflexivity. simpl. lia. }
  split; [exact M5|]. split; [reflexivity|]. split; [|split].
  - left. right. reflexivity.
  - reflexivity.
  - intros H. specialize (H five_coefficients M5). discriminate.
Qed.

(** C6, amended.  A configuration that lacks the logistic section, its
    coefficient list or its intercept makes the construction raise
    [KeyError], before anything is scored.  A configuration with all three
    is loaded whatever the number of coefficients; when that number is not
    six the model raises [ValueError] on every six-column feature matrix it
    is asked to score. *)
Theorem init_missing_field_or_loaded (cfg : ModelJson) :
  (Spec.missing_field cfg -> AliFilterModel.__init__ cfg = Err KeyError)
  /\ (forall lm cs b,
        LogisticModel cfg = Some lm -> Coefficients lm = Some cs ->
        Intercept lm = Some b ->
        exists self,
          AliFilterModel.__init__ cfg = Ok self
          /\ AliFilterModel.logisticModelCoefficients self = cs
          /\ AliFilterModel.logisticModelIntercept self = b
          /\ (length cs <> 6%nat ->
              forall F, ncols F = 6%nat ->
                AliFilterModel.getScores self F = Err ValueError)).
Proof.
  split.
  - unfold Spec.missing_field, AliFilterModel.__init__.
    destruct (LogisticModel cfg) as [lm|]; simpl; auto.
    intros [H|H]; rewrite H; simpl; auto.
    destruct (Coefficients lm); reflexivity.
  - intros lm cs b H1 H2 H3. unfold AliFilterModel.__init__.
    rewrite H1. simpl. rewrite H2, H3. simpl. eexists.
    repeat split. simpl. intros Hn F HF.
    unfold AliFilterModel.getScores, dot. simpl. rewrite HF.
    replace (6 =? length cs)%nat with false
      by (symmetry; apply Nat.eqb_neq; congruence).
    reflexivity.
Qed.

Lemma init_missing_field_or_loaded_witness :
  AliFilterModel.__init__ no_intercept = Err KeyError
  /\ exists self,
       AliFilterModel.__init__ five_coefficients = Ok self
       /\ AliFilterModel.logisticModelCoefficients self = [1; 2; 3; 4; 5]%R
       /\ AliFilterModel.logisticModelIntercept self = 0%R
       /\ (length [1; 2; 3; 4; 5]%R <> 6%nat ->
           forall F, ncols F = 6%nat ->
             AliFilterModel.getScores self F = Err ValueError).
Proof.
  split.
  - apply (proj1 (init_missing_field_or_loaded no_intercept)).
    simpl. right. reflexivity.
  - apply (proj2 (init_missing_field_or_loaded five_coefficients)
             (mk_LogisticModelJson (Some [1; 2; 3; 4; 5]%R) (Some 0%R)));
      reflexivity.
Defined.

(* ================================================================== *)
(** ** An alignment without sequences *)

Lemma zero_sequences_column (a : MultipleSeqAlignment) (i : nat) (fm : ndarray) :
  len a = 0%nat ->
  __alifilter_computeColumnFeatures a i fm = Err ZeroDivisionError.
Proof.
  intros H. unfold __alifilter_computeColumnFeatures. rewrite H. reflexivity.
Qed.

Lemma zero_sequences_features (a : MultipleSeqAlignment) :
  len a = 0%nat -> (0 < get_alignment_length a)%nat ->
  __alifilter_getAlignmentFeatures a = Err ZeroDivisionError.
Proof.
  intros Hlen HL. unfold __alifilter_getAlignmentFeatures, range.
  destruct (get_alignment_length a) as [|L]; [lia|].
  cbn [List.seq for_in]. rewrite zero_sequences_column by assumption.
  reflexivity.
Qed.




(* ================================================================== *)
(** ** Ranges of the features and of the scores *)












Lemma sigmoid_range (z : R) : (0 < Spec.sigmoid z < 1)%R.
Proof.
  unfold Spec.sigmoid. pose proof (exp_pos (- z)) as He.
  assert (H1 : (0 < / (1 + exp (- z)))%R) by (apply Rinv_0_lt_compat; lra).
  assert (H2 : ((1 + exp (- z)) * / (1 + exp (- z)) = 1)%R)
    by (apply Rinv_r; lra).
  unfold Rdiv. split; nra.
Qed.



(** For the logit -1000 the exponential overflows and no score is
    returned. *)
Example score_overflow :
  Binary64.logistic 0%float (-1000)%float = Some (Err OverflowError).
Proof. reflexivity. Qed.

(** A logit that is not a finite number (a product with a coefficient can
    overflow) gets a score outside the range of the logistic function: [0.0]
    for minus infinity, NaN for NaN. *)
Example scores_of_logits_that_are_not_finite :
  Binary64.logistic 0%float neg_infinity = Some (Ok 0%float)
  /\ Binary64.logistic 0%float infinity = Some (Ok 1%float)
  /\ (exists s, Binary64.logistic 0%float nan = Some (Ok s)
                /\ is_nan s = true).
Proof.
  split; [reflexivity|]. split; [reflexivity|].
  eexists. split; reflexivity.
Qed.




(* ================================================================== *)
(** ** The filter *)

Lemma map_raise_ok {X Y} (f : X -> result Y) (xs : list X) : forall ys,
  map_raise f xs = Ok ys -> Forall2 (fun x y => f x = Ok y) xs ys.
Proof.
  induction xs as [|x xs IH]; simpl; intros ys H.
  - injection H as <-. constructor.
  - bind_inv H. bind_inv H. injection H as <-. constructor; auto.
Qed.

Lemma nth_error_middle {A} (pre rest : list A) (x : A) :
  nth_error (pre ++ x :: rest) (length pre) = Some x.
Proof. rewrite nth_error_app2 by lia. now rewrite Nat.sub_diag. Qed.

Lemma select_empty (mask : string) : Spec.select mask EmptyString = EmptyString.
Proof. destruct mask; reflexivity. Qed.

Lemma ones_String (m : ascii) (mask : string) :
  Spec.ones (String m mask)
  = ((if Ascii.eqb "1"%char m then 1 else 0) + Spec.ones mask)%nat.
Proof. unfold Spec.ones. simpl. apply count_cons. Qed.

Lemma mask_char_keep (self : AliFilterModel.t) (x : R) :
  Ascii.eqb (AliFilterModel.mask_char self x) "1"%char
  = Py.ge x (AliFilterModel.threshold self).
Proof.
  unfold AliFilterModel.mask_char.
  now destruct (Py.ge x (AliFilterModel.threshold self)).
Qed.

(** The generator of [filter] yields the characters under the ['1'] entries
    of the mask, and as many of them as the mask has ['1'] entries. *)
Lemma kept_chars_select (self : AliFilterModel.t) (s : string) (rest : list R) :
  forall (pre : list R) (s' : string) (cs : list ascii),
    (forall i, String.get (length pre + i) s = String.get i s') ->
    AliFilterModel.kept_chars self s (pre ++ rest)
      (List.seq (length pre) (length rest)) = Ok cs ->
    join cs = Spec.select (AliFilterModel.getMaskFromScores self rest) s'
    /\ length cs = Spec.ones (AliFilterModel.getMaskFromScores self rest).
Proof.
  induction rest as [|x rest IH]; intros pre s' cs Hs H.
  - simpl in H. injection H as <-. split; reflexivity.
  - cbn [length List.seq AliFilterModel.kept_chars] in H.
    unfold index in H. rewrite nth_error_middle in H. cbn [bind] in H.
    assert (Hs' : forall i,
               String.get (length (pre ++ [x]) + i) s
               = String.get i (string_tail s')).
    { intros i. rewrite length_app. simpl length.
      replace (length pre + 1 + i)%nat with (length pre + S i)%nat by lia.
      rewrite Hs. destruct s'; reflexivity. }
    replace (pre ++ x :: rest) with ((pre ++ [x]) ++ rest) in H
      by (now rewrite <- app_assoc).
    replace (S (length pre)) with (length (pre ++ [x])) in H
      by (rewrite length_app; simpl; lia).
    unfold AliFilterModel.getMaskFromScores, join. cbn [map string_of_list_ascii].
    rewrite ones_String.
    change (string_of_list_ascii (map (AliFilterModel.mask_char self) rest))
      with (AliFilterModel.getMaskFromScores self rest).
    pose proof (mask_char_keep self x) as Hk.
    destruct (Py.ge x (AliFilterModel.threshold self)) eqn:G.
    + bind_inv H. bind_inv H. injection H as <-.
      unfold str_index in E. specialize (Hs 0%nat).
      rewrite Nat.add_0_r in Hs. rewrite Hs in E.
      destruct s' as [|c s']; [discriminate|]. simpl in E. injection E as <-.
      destruct (IH _ _ _ Hs' E0) as (I1 & I2).
      assert (Hm : AliFilterModel.mask_char self x = "1"%char)
        by now apply Ascii.eqb_eq.
      rewrite Hm. simpl. unfold join in I1. simpl in I1. rewrite I1, I2.
      split; reflexivity.
    + destruct (IH _ _ _ Hs' H) as (I1 & I2).
      assert (Hm : AliFilterModel.mask_char self x = "0"%char).
      { unfold AliFilterModel.mask_char. now rewrite G. }
      rewrite Hm. simpl. unfold join in I1. rewrite I1, I2.
      split; [|reflexivity].
      destruct s' as [|c s']; simpl; [apply select_empty | reflexivity].
Qed.

Lemma getMaskFromScores_get (self : AliFilterModel.t) (scores : list R)
  (i : nat) (x : R) :
  nth_error scores i = Some x ->
  keep_at (AliFilterModel.getMaskFromScores self scores) i
  = Py.ge x (AliFilterModel.threshold self).
Proof.
  intros H. unfold keep_at, AliFilterModel.getMaskFromScores, join.
  rewrite get_string_of_list, nth_error_map, H. simpl. apply mask_char_keep.
Qed.

(** The generator of [filter] reads the row at the columns the mask keeps. *)
Lemma kept_chars_positions (self : AliFilterModel.t) (s : string)
  (scores : list R) (ixs : list nat) :
  Forall (fun i => (i < length scores)%nat) ixs ->
  AliFilterModel.kept_chars self s scores ixs
  = map_raise (str_index s)
      (List.filter (keep_at (AliFilterModel.getMaskFromScores self scores)) ixs).
Proof.
  induction 1 as [|i ixs Hi _ IH]; [reflexivity|].
  destruct (nth_error_lt_some scores i Hi) as (x & Hx).
  cbn [AliFilterModel.kept_chars List.filter].
  rewrite (index_some _ _ _ Hx). cbn [bind].
  rewrite (getMaskFromScores_get self scores i x Hx).
  destruct (Py.ge x (AliFilterModel.threshold self)).
  - cbn [map_raise]. now rewrite IH.
  - exact IH.
Qed.

Lemma map_raise_get (s : string) (ixs : list nat) : forall cs,
  map_raise (str_index s) ixs = Ok cs ->
  map (fun i => String.get i s) ixs = map Some cs.
Proof.
  induction ixs as [|i ixs IH]; simpl; intros cs H.
  - now injection H as <-.
  - bind_inv H. bind_inv H. injection H as <-. simpl.
    rewrite (IH _ E0). unfold str_index in E.
    destruct (String.get i s); [|discriminate]. now injection E as <-.
Qed.

(** The shape of the feature matrix, whenever it is produced. *)
Lemma compute_column_shape (a : MultipleSeqAlignment) (j : nat) (fm fm' : ndarray) :
  __alifilter_computeColumnFeatures a j fm = Ok fm' ->
  ncols fm' = ncols fm /\ length (rows fm') = length (rows fm).
Proof.
  unfold __alifilter_computeColumnFeatures. intros H.
  repeat bind_inv H.
  destruct (validChars x >? 0)%Z; repeat bind_inv E2;
    repeat match goal with
           | H : setitem _ _ _ _ = Ok _ |- _ => apply setitem_shape in H
           end; intuition congruence.
Qed.

Lemma smooth_column_shape (L i : nat) (fm fm' : ndarray) :
  smooth_column L i fm = Ok fm' ->
  ncols fm' = ncols fm /\ length (rows fm') = length (rows fm).
Proof.
  unfold smooth_column. intros H. repeat bind_inv H.
  repeat match goal with
         | H : setitem _ _ _ _ = Ok _ |- _ => apply setitem_shape in H
         end; intuition congruence.
Qed.

Lemma features_shape (a : MultipleSeqAlignment) (F : ndarray) :
  __alifilter_getAlignmentFeatures a = Ok F ->
  ncols F = 6%nat /\ length (rows F) = get_alignment_length a.
Proof.
  unfold __alifilter_getAlignmentFeatures. intros H. bind_inv H.
  set (P := fun fm : ndarray =>
              ncols fm = 6%nat /\ length (rows fm) = get_alignment_length a).
  assert (P0 : P (zeros (get_alignment_length a) 6)).
  { unfold P, zeros. simpl. now rewrite repeat_length. }
  assert (P1 : P x).
  { eapply (for_in_preserves P); [|exact E|exact P0].
    intros j s s' Hs (C & N). apply compute_column_shape in Hs.
    unfold P. intuition congruence. }
  eapply (for_in_preserves P); [|exact H|exact P1].
  intros j s s' Hs (C & N). apply smooth_column_shape in Hs.
  unfold P. intuition congruence.
Qed.

Lemma features_need_rows (a : MultipleSeqAlignment) (F : ndarray) :
  __alifilter_getAlignmentFeatures a = Ok F -> len a = 0%nat ->
  get_alignment_length a = 0%nat.
Proof.
  intros H Hlen. destruct (get_alignment_length a) as [|L] eqn:E; auto.
  rewrite (zero_sequences_features a Hlen) in H by lia. discriminate.
Qed.

Lemma Forall2_map_eq {X Y Z} (R : X -> Y -> Prop) (g : Y -> Z) (h : X -> Z)
  (xs : list X) (ys : list Y) :
  (forall x y, R x y -> g y = h x) ->
  Forall2 R xs ys -> map g ys = map h xs.
Proof.
  intros H. induction 1 as [|x y xs ys Hxy _ IH]; simpl; auto.
  now rewrite IH, (H x y Hxy).
Qed.

Lemma Forall2_right {X Y} (R : X -> Y -> Prop) (Q : Y -> Prop)
  (xs : list X) (ys : list Y) :
  (forall x y, R x y -> Q y) -> Forall2 R xs ys -> Forall Q ys.
Proof.
  intros H. induction 1 as [|x y xs ys Hxy _ IH]; constructor; eauto.
Qed.

Lemma new_alignment_ok (rs : list SeqRecord) (r : MultipleSeqAlignment) :
  new_alignment rs = Ok r ->
  records r = rs
  /\ get_alignment_length r
     = match rs with [] => 0%nat | r0 :: _ => String.length (seq r0) end.
Proof.
  unfold new_alignment. destruct rs as [|r0 rs].
  - intros H. injection H as <-. auto.
  - destruct (forallb _ rs); [|discriminate].
    intros H. injection H as <-. auto.
Qed.

(** What [filter] does, step by step, whenever it returns. *)
Lemma filter_ok (self : AliFilterModel.t) (a r : MultipleSeqAlignment) :
  AliFilterModel.filter self a = Ok r ->
  exists F scores,
    __alifilter_getAlignmentFeatures a = Ok F
    /\ AliFilterModel.getScores self F = Ok scores
    /\ length scores = get_alignment_length a
    /\ AliFilterModel.getMask self a
       = Ok (AliFilterModel.getMaskFromScores self scores)
    /\ Forall2 (fun x y => AliFilterModel.filter_record self scores x = Ok y)
         (records a) (records r)
    /\ get_alignment_length r
       = match records r with
         | [] => 0%nat
         | r0 :: _ => String.length (seq r0)
         end.
Proof.
  unfold AliFilterModel.filter. intros H. repeat bind_inv H.
  apply new_alignment_ok in H as (Hr & HL). rewrite <- Hr in HL.
  exists x, x0. split; [exact E|]. split; [exact E0|].
  pose proof (features_shape a x E) as (_ & N).
  pose proof (getScores_ok self x x0 E0) as (Hs & _ & _).
  split; [|split; [|split]].
  - rewrite Hs, length_map. exact N.
  - unfold AliFilterModel.getMask, AliFilterModel.getMaskFromFeatures.
    rewrite E. cbn [bind]. rewrite E0. reflexivity.
  - rewrite Hr. now apply map_raise_ok.
  - exact HL.
Qed.

Lemma filter_record_ok (self : AliFilterModel.t) (scores : list R)
  (x y : SeqRecord) :
  AliFilterModel.filter_record self scores x = Ok y ->
  Spec.metadata y = Spec.metadata x
  /\ seq y = Spec.select (AliFilterModel.getMaskFromScores self scores) (seq x)
  /\ String.length (seq y)
     = Spec.ones (AliFilterModel.getMaskFromScores self scores)
  /\ map (fun i => String.get i (seq x))
       (Spec.keptColumns (AliFilterModel.getMaskFromScores self scores))
     = map Some (list_ascii_of_string (seq y)).
Proof.
  unfold AliFilterModel.filter_record. intros H.
  set (mask := AliFilterModel.getMaskFromScores self scores). bind_inv H.
  injection H as <-. cbn [seq]. split; [reflexivity|].
  assert (Hs : forall i, String.get (length (@nil R) + i) (seq x)
                         = String.get i (seq x)) by reflexivity.
  destruct (kept_chars_select self (seq x) scores [] (seq x) x0 Hs E)
    as (S1 & S2).
  split; [exact S1|]. split.
  - unfold join. now rewrite length_string_of_list.
  - unfold range in E. rewrite kept_chars_positions in E.
    + apply map_raise_get in E. unfold join.
      rewrite list_ascii_of_string_of_list_ascii. rewrite <- E.
      unfold Spec.keptColumns, mask.
      unfold AliFilterModel.getMaskFromScores at 2. unfold join.
      rewrite length_string_of_list, length_map. reflexivity.
    + apply Forall_forall. intros i Hi. apply in_seq in Hi. lia.
Qed.

(** C4.  Whenever [filter] returns an alignment, the mask of the same model
    and alignment exists and has one entry per column; the result has as many
    rows as the source, in the same order, each with the id, name,
    description, cross references, features, annotations and letter
    annotations of its source row; each row holds exactly the source
    characters under the ['1'] entries of the mask, in their order; and the
    number of columns of every row and of the result is the number of ['1']
    entries of the mask. *)
Theorem filter_rows_and_columns (self : AliFilterModel.t)
  (a r : MultipleSeqAlignment) :
  AliFilterModel.filter self a = Ok r ->
  exists mask,
    AliFilterModel.getMask self a = Ok mask
    /\ String.length mask = get_alignment_length a
    /\ length (records r) = length (records a)
    /\ map Spec.metadata (records r) = map Spec.metadata (records a)
    /\ map seq (records r) = map (fun x => Spec.select mask (seq x)) (records a)
    /\ Forall (fun y => String.length (seq y) = Spec.ones mask) (records r)
    /\ get_alignment_length r = Spec.ones mask.
Proof.
  intros H.
  destruct (filter_ok self a r H) as (F & scores & EF & ES & N & EM & H2 & HL).
  set (mask := AliFilterModel.getMaskFromScores self scores) in *.
  assert (HF : Forall (fun y => String.length (seq y) = Spec.ones mask)
                 (records r)).
  { apply (Forall2_right _ _ _ _ (fun x y Hxy =>
             proj1 (proj2 (proj2 (filter_record_ok self scores x y Hxy)))) H2). }
  exists mask. split; [exact EM|]. split; [|split; [|split; [|split; [|split]]]].
  - unfold mask, AliFilterModel.getMaskFromScores, join.
    now rewrite length_string_of_list, length_map.
  - symmetry. apply (Forall2_length H2).
  - apply (Forall2_map_eq _ _ _ _ _ (fun x y Hxy =>
             proj1 (filter_record_ok self scores x y Hxy)) H2).
  - apply (Forall2_map_eq _ _ _ _ _ (fun x y Hxy =>
             proj1 (proj2 (filter_record_ok self scores x y Hxy))) H2).
  - exact HF.
  - rewrite HL. destruct (records r) as [|r0 rs] eqn:Hr.
    + inversion H2 as [Ha|]; subst.
      assert (L0 : get_alignment_length a = 0%nat).
      { apply (features_need_rows a F EF). unfold len. now rewrite <- Ha. }
      rewrite L0 in N. destruct scores; [reflexivity|discriminate].
    + now inversion HF.
Qed.

(** C10.  Whenever [filter] and [getMask] both return, on the same model and
    alignment, every row of the filtered alignment consists of the characters
    its source row has at the columns [i] whose mask entry is ['1'], one for
    each such column and in the order of the columns. *)
Theorem filter_agrees_with_mask (self : AliFilterModel.t)
  (a r : MultipleSeqAlignment) (mask : string) :
  AliFilterModel.filter self a = Ok r ->
  AliFilterModel.getMask self a = Ok mask ->
  String.length mask = get_alignment_length a
  /\ (forall i, In i (Spec.keptColumns mask)
                <-> (i < get_alignment_length a)%nat
                    /\ String.get i mask = Some "1"%char)
  /\ Forall2 (fun x y =>
                map (fun i => String.get i (seq x)) (Spec.keptColumns mask)
                = map Some (list_ascii_of_string (seq y)))
       (records a) (records r).
Proof.
  intros H HM.
  destruct (filter_ok self a r H) as (F & scores & EF & ES & N & EM & H2 & HL).
  rewrite EM in HM. injection HM as <-.
  set (mask := AliFilterModel.getMaskFromScores self scores) in *.
  assert (HLm : String.length mask = get_alignment_length a).
  { unfold mask, AliFilterModel.getMaskFromScores, join.
    now rewrite length_string_of_list, length_map. }
  split; [exact HLm|]. split.
  - intros i. unfold Spec.keptColumns. rewrite filter_In, in_seq, HLm.
    split.
    + intros (Hi & Hk). split; [lia|].
      destruct (String.get i mask) as [c|]; [|discriminate].
      apply Ascii.eqb_eq in Hk. now subst.
    + intros (Hi & Hk). split; [lia|]. rewrite Hk. reflexivity.
  - eapply Forall2_impl; [|exact H2]. intros x y Hxy.
    apply (filter_record_ok self scores x y Hxy).
Qed.

(* ================================================================== *)
(** ** The filter on alignments it accepts *)

Lemma map_raise_map {X Y Z} (f : Y -> result Z) (g : X -> Y) (xs : list X) :
  map_raise f (map g xs) = map_raise (fun x => f (g x)) xs.
Proof.
  induction xs as [|x xs IH]; simpl; auto. now rewrite IH.
Qed.

Lemma map_raise_ext {X Y} (f g : X -> result Y) (xs : list X) :
  (forall x, In x xs -> f x = g x) -> map_raise f xs = map_raise g xs.
Proof.
  induction xs as [|x xs IH]; simpl; intros H; auto.
  rewrite (H x) by auto. now rewrite IH by auto.
Qed.

(** Reading a string at all its positions gives back its characters. *)
Lemma read_all (s : string) :
  map_raise (str_index s) (List.seq 0 (String.length s))
  = Ok (list_ascii_of_string s).
Proof.
  induction s as [|c s IH]; [reflexivity|].
  cbn [String.length List.seq map_raise]. unfold str_index at 1.
  cbn [String.get bind]. rewrite <- seq_shift, map_raise_map.
  change (fun x => str_index (String c s) (S x)) with (str_index s).
  rewrite IH. reflexivity.
Qed.

Lemma filter_record_all (self : AliFilterModel.t) (scores : list R)
  (x : SeqRecord) :
  Forall (fun s => Py.ge s (AliFilterModel.threshold self) = true) scores ->
  String.length (seq x) = length scores ->
  AliFilterModel.filter_record self scores x = Ok x.
Proof.
  intros Hall Hlen. unfold AliFilterModel.filter_record, range.
  rewrite kept_chars_positions
    by (apply Forall_forall; intros i Hi; apply in_seq in Hi; lia).
  rewrite filter_everything.
  - rewrite <- Hlen, read_all. cbn [bind]. unfold join.
    rewrite string_of_list_ascii_of_string. now destruct x.
  - intros i Hi. apply in_seq in Hi.
    destruct (nth_error_lt_some scores i) as (v & Hv); [lia|].
    rewrite (getMaskFromScores_get self scores i v Hv).
    rewrite Forall_forall in Hall. apply Hall.
    eapply nth_error_In; eauto.
Qed.

Lemma filter_record_none (self : AliFilterModel.t) (scores : list R)
  (x : SeqRecord) :
  Forall (fun s => Py.ge s (AliFilterModel.threshold self) = false) scores ->
  AliFilterModel.filter_record self scores x = Ok (with_seq EmptyString x).
Proof.
  intros Hall. unfold AliFilterModel.filter_record, range.
  rewrite kept_chars_positions
    by (apply Forall_forall; intros i Hi; apply in_seq in Hi; lia).
  rewrite filter_nothing; [reflexivity|].
  intros i Hi. apply in_seq in Hi.
  destruct (nth_error_lt_some scores i) as (v & Hv); [lia|].
  rewrite (getMaskFromScores_get self scores i v Hv).
  rewrite Forall_forall in Hall. apply Hall.
  eapply nth_error_In; eauto.
Qed.

Lemma map_raise_all {X Y} (f : X -> result Y) (g : X -> Y) (xs : list X) :
  (forall x, In x xs -> f x = Ok (g x)) -> map_raise f xs = Ok (map g xs).
Proof.
  induction xs as [|x xs IH]; simpl; intros H; auto.
  rewrite (H x) by auto. simpl. now rewrite IH by auto.
Qed.

Lemma new_alignment_rectangular (a : MultipleSeqAlignment) :
  rectangular a ->
  ((0 < get_alignment_length a)%nat -> (0 < len a)%nat) ->
  new_alignment (records a) = Ok a.
Proof.
  destruct a as [rs L]. unfold rectangular, len, new_alignment. simpl.
  intros Hrect Hlen. destruct rs as [|r0 rs].
  - simpl in Hlen. destruct L; [reflexivity|]. exfalso.
    assert (0 < 0)%nat by (apply Hlen; lia). lia.
  - inversion Hrect as [|? ? H0 Hrs]; subst.
    replace (forallb _ rs) with true; [reflexivity|].
    symmetry. apply forallb_forall. intros r Hr. apply Nat.eqb_eq.
    rewrite Forall_forall in Hrs. now apply Hrs.
Qed.

(** Scores that all reach the threshold leave the alignment as it is. *)
Lemma filter_keeps_all (self : AliFilterModel.t) (a : MultipleSeqAlignment) :
  rectangular a -> (0 < len a)%nat ->
  get_alignment_length a <> 1%nat ->
  length (AliFilterModel.logisticModelCoefficients self) = 6%nat ->
  (forall v, (score_of self v >= AliFilterModel.threshold self)%R) ->
  AliFilterModel.filter self a = Ok a.
Proof.
  intros Hrect Hlen H1 H6 Hall.
  destruct (features_closed_form a Hrect (fun _ => Hlen))
    as (F & E & C & N & _).
  unfold AliFilterModel.filter. rewrite E. cbn [bind].
  rewrite getScores_rows by congruence. cbn [bind].
  rewrite map_raise_all with (g := fun x => x).
  - cbn [bind]. rewrite map_id. apply new_alignment_rectangular; auto.
  - intros x Hx. apply filter_record_all.
    + apply Forall_forall. intros s Hs. apply in_map_iff in Hs as (v & <- & _).
      apply ge_true, Hall.
    + rewrite length_map, N. unfold rectangular in Hrect.
      rewrite Forall_forall in Hrect. now apply Hrect.
Qed.

(** A threshold above 1 removes every column, except that the filter does
    not return on an alignment of exactly one column. *)
Lemma filter_unreachable_threshold (self : AliFilterModel.t)
  (a : MultipleSeqAlignment) :
  rectangular a ->
  ((0 < get_alignment_length a)%nat -> (0 < len a)%nat) ->
  get_alignment_length a <> 1%nat ->
  length (AliFilterModel.logisticModelCoefficients self) = 6%nat ->
  (1 < AliFilterModel.threshold self)%R ->
  AliFilterModel.filter self a
  = Ok (mk_alignment (map (with_seq EmptyString) (records a)) 0).
Proof.
  intros Hrect Hlen H1 H6 Hth.
  destruct (features_closed_form a Hrect Hlen) as (F & E & C & N & _).
  unfold AliFilterModel.filter. rewrite E. cbn [bind].
  rewrite getScores_rows by congruence. cbn [bind].
  rewrite map_raise_all with (g := with_seq EmptyString).
  - cbn [bind]. unfold new_alignment.
    destruct (records a) as [|r0 rs]; [reflexivity|]. simpl.
    replace (forallb _ (map (with_seq EmptyString) rs)) with true;
      [reflexivity|].
    symmetry. apply forallb_forall. intros r Hr.
    apply in_map_iff in Hr as (r' & <- & _). reflexivity.
  - intros x Hx. apply filter_record_none.
    apply Forall_forall. intros s Hs. apply in_map_iff in Hs as (v & <- & _).
    destruct (Py.ge (score_of self v) (AliFilterModel.threshold self)) eqn:G;
      [|reflexivity].
    apply ge_true in G. pose proof (sigmoid_range
      (Spec.dot v (AliFilterModel.logisticModelCoefficients self)
       + AliFilterModel.logisticModelIntercept self)) as Hr.
    unfold score_of in G. lra.
Qed.

(** C9, at the failing input.  With a threshold of 2 the filter does not
    return on a valid alignment of two sequences and one column: the scores
    cannot be computed from a one-row feature matrix. *)
Theorem filter_single_column_raises :
  rectangular (alignment_of ["A"; "C"]%string 1)
  /\ AliFilterModel.filter unreachable_model (alignment_of ["A"; "C"]%string 1)
     = Err TypeError.
Proof.
  split.
  - repeat constructor.
  - vm_compute. reflexivity.
Qed.

Lemma zero_model_scores (v : list R) :
  (score_of zero_model v >= AliFilterModel.threshold zero_model)%R.
Proof.
  unfold score_of. rewrite dot_zeros by (repeat constructor).
  simpl. rewrite Rplus_0_l, sigmoid_zero. lra.
Qed.

Lemma filter_sample :
  AliFilterModel.filter zero_model (alignment_of ["A-A"; "aXA"]%string 3)
  = Ok (alignment_of ["A-A"; "aXA"]%string 3).
Proof.
  apply filter_keeps_all.
  - exact sample_rectangular.
  - vm_compute. lia.
  - discriminate.
  - reflexivity.
  - exact zero_model_scores.
Defined.

Lemma mask_all_ones (self : AliFilterModel.t) (vs : list (list R)) :
  (forall v, (score_of self v >= AliFilterModel.threshold self)%R) ->
  AliFilterModel.getMaskFromScores self (map (score_of self) vs)
  = string_of_list_ascii (repeat "1"%char (length vs)).
Proof.
  intros Hall. unfold AliFilterModel.getMaskFromScores, join. f_equal.
  rewrite map_map. induction vs as [|v vs IH]; simpl; auto.
  rewrite IH. f_equal. apply mask_char_one, Hall.
Qed.

Lemma getMask_sample :
  AliFilterModel.getMask zero_model (alignment_of ["A-A"; "aXA"]%string 3)
  = Ok "111"%string.
Proof.
  destruct (features_closed_form (alignment_of ["A-A"; "aXA"]%string 3)
              sample_rectangular) as (F & E & C & N & _).
  - intros _. vm_compute. lia.
  - unfold AliFilterModel.getMask, AliFilterModel.getMaskFromFeatures.
    rewrite E. cbn [bind].
    rewrite getScores_rows by (rewrite ?C, ?N; simpl; congruence).
    cbn [bind]. rewrite mask_all_ones by exact zero_model_scores.
    rewrite N. reflexivity.
Defined.

Lemma zero_model_score (v : list R) : score_of zero_model v = 0.5%R.
Proof.
  unfold score_of. rewrite dot_zeros by (repeat constructor).
  simpl. rewrite Rplus_0_l. apply sigmoid_zero.
Qed.

(** The model of all zeros gives every row of a matrix of six columns and any
    number of rows but one the score 0.5, and the mask of all ['1']. *)
Lemma zero_model_mask (F : ndarray) :
  ncols F = 6%nat -> length (rows F) <> 1%nat ->
  AliFilterModel.getScores zero_model F = Ok (repeat 0.5%R (length (rows F)))
  /\ AliFilterModel.getMaskFromFeatures zero_model F
     = Ok (string_of_list_ascii (repeat "1"%char (length (rows F)))).
Proof.
  intros H6 H1.
  assert (ES : AliFilterModel.getScores zero_model F
               = Ok (map (score_of zero_model) (rows F)))
    by (apply getScores_rows; auto).
  split.
  - rewrite ES. f_equal. clear. induction (rows F) as [|v l IH]; [reflexivity|].
    cbn [map length repeat]. now rewrite IH, zero_model_score.
  - unfold AliFilterModel.getMaskFromFeatures. rewrite ES. cbn [bind].
    now rewrite mask_all_ones by exact zero_model_scores.
Qed.

(* ================================================================== *)
(** ** The examples of the specification (section 8) *)

Lemma built_features (a : MultipleSeqAlignment) :
  rectangular a -> (0 < len a)%nat ->
  exists F,
    __alifilter_getAlignmentFeatures a = Ok F
    /\ forall i, (i < get_alignment_length a)%nat ->
         getitem F i 0 = Ok (Spec.gapFraction a i)
         /\ getitem F i 1 = Ok (Spec.maxIdentityFraction a i)
         /\ getitem F i 2 = Ok (Spec.distanceFromExtremity a i)
         /\ getitem F i 3 = Ok (Spec.shannonEntropy a i).
Proof.
  intros Hrect Hlen.
  destruct (features_closed_form a Hrect (fun _ => Hlen))
    as (F & E & C & N & Hrows).
  exists F. split; [exact E|]. intros i Hi.
  repeat split; apply getitem_final_row with (a := a); auto.
Qed.

(** Rows ["A-A"], ["AAA"]: the gap fractions are 0, 1/2, 0. *)
Example gap_in_the_middle :
  exists F,
    __alifilter_getAlignmentFeatures (alignment_of ["A-A"; "AAA"]%string 3) = Ok F
    /\ getitem F 0 0 = Ok 0%R
    /\ getitem F 1 0 = Ok (1 / 2)%R
    /\ getitem F 2 0 = Ok 0%R.
Proof.
  destruct (built_features (alignment_of ["A-A"; "AAA"]%string 3))
    as (F & E & H).
  - repeat constructor.
  - vm_compute. lia.
  - exists F. split; [exact E|].
    destruct (H 0%nat) as (G0 & _); [vm_compute; lia|].
    destruct (H 1%nat) as (G1 & _); [vm_compute; lia|].
    destruct (H 2%nat) as (G2 & _); [vm_compute; lia|].
    rewrite G0, G1, G2. unfold Spec.gapFraction. simpl.
    repeat split; f_equal; lra.
Qed.

(** Three rows ["AAA"]: no gaps, identity 1, entropy 0, distances 0, 1, 0. *)
Example identical_rows :
  exists F,
    __alifilter_getAlignmentFeatures
      (alignment_of ["AAA"; "AAA"; "AAA"]%string 3) = Ok F
    /\ (forall i, (i < 3)%nat ->
          getitem F i 0 = Ok 0%R /\ getitem F i 1 = Ok 1%R
          /\ getitem F i 3 = Ok 0%R)
    /\ getitem F 0 2 = Ok 0%R /\ getitem F 1 2 = Ok 1%R
    /\ getitem F 2 2 = Ok 0%R.
Proof.
  destruct (built_features (alignment_of ["AAA"; "AAA"; "AAA"]%string 3))
    as (F & E & H).
  - repeat constructor.
  - vm_compute. lia.
  - exists F. split; [exact E|].
    assert (Hcol : forall i, (i < 3)%nat ->
              Spec.column (alignment_of ["AAA"; "AAA"; "AAA"]%string 3) i
              = ["A"; "A"; "A"]%char).
    { intros [|[|[|i]]] Hi; try lia; reflexivity. }
    split; [|repeat split].
    + intros i Hi. destruct (H i) as (G0 & G1 & _ & G3); [exact Hi|].
      rewrite G0, G1, G3.
      unfold Spec.gapFraction, Spec.maxIdentityFraction, Spec.shannonEntropy.
      rewrite (Hcol i Hi). simpl. rewrite Rplus_0_r.
      replace ((1 + 1 + 1) / (1 + 1 + 1))%R with 1%R by lra.
      rewrite ln_1. repeat split; f_equal; lra.
    + destruct (H 0%nat) as (_ & _ & G & _); [vm_compute; lia|]. exact G.
    + destruct (H 1%nat) as (_ & _ & G & _); [vm_compute; lia|]. exact G.
    + destruct (H 2%nat) as (_ & _ & G & _); [vm_compute; lia|]. exact G.
Qed.

(* ================================================================== *)
(** ** A filter that drops columns *)

Lemma distance_model_score (a : MultipleSeqAlignment) (j : nat) :
  score_of distance_model (final_row a j)
  = Spec.sigmoid (Spec.distanceFromExtremity a j).
Proof.
  unfold score_of, Spec.dot, Spec.total, final_row. simpl. f_equal. ring.
Qed.

Lemma sigmoid_one : (Spec.sigmoid 1 >= 0.6)%R.
Proof.
  unfold Spec.sigmoid. rewrite exp_Ropp.
  assert (H : (2 < exp 1)%R).
  { replace 2%R with (1 + 1)%R by lra. apply exp_ineq1. lra. }
  assert (Hi : (0 < / exp 1 < / 2)%R).
  { split; [apply Rinv_0_lt_compat; lra|].
    apply Rinv_lt_contravar; lra. }
  assert (Hd : (0 < / (1 + / exp 1))%R) by (apply Rinv_0_lt_compat; lra).
  assert (H1 : ((1 + / exp 1) * / (1 + / exp 1) = 1)%R) by (apply Rinv_r; lra).
  unfold Rdiv. nra.
Qed.

Lemma three_rows (a : MultipleSeqAlignment) (F : ndarray) :
  length (rows F) = 3%nat ->
  (forall j, (j < 3)%nat -> nth_error (rows F) j = Some (final_row a j)) ->
  rows F = [final_row a 0; final_row a 1; final_row a 2].
Proof.
  intros N H.
  pose proof (H 0%nat ltac:(lia)) as H0.
  pose proof (H 1%nat ltac:(lia)) as H1.
  pose proof (H 2%nat ltac:(lia)) as H2.
  destruct (rows F) as [|r0 [|r1 [|r2 [|r3 rs]]]]; try discriminate.
  simpl in *. congruence.
Qed.

Lemma sample_scores :
  exists F,
    __alifilter_getAlignmentFeatures (alignment_of ["A-A"; "aXA"]%string 3) = Ok F
    /\ AliFilterModel.getScores distance_model F
       = Ok [Spec.sigmoid 0; Spec.sigmoid 1; Spec.sigmoid 0]%R.
Proof.
  destruct (features_closed_form (alignment_of ["A-A"; "aXA"]%string 3)
              sample_rectangular) as (F & E & C & N & Hrows).
  - intros _. vm_compute. lia.
  - exists F. split; [exact E|].
    rewrite getScores_rows by (rewrite ?C, ?N; simpl; congruence).
    rewrite (three_rows _ F N Hrows). cbn [map].
    rewrite !distance_model_score. reflexivity.
Qed.

Lemma sample_mask :
  AliFilterModel.getMaskFromScores distance_model
    [Spec.sigmoid 0; Spec.sigmoid 1; Spec.sigmoid 0]%R
  = "010"%string.
Proof.
  assert (H0 : AliFilterModel.mask_char distance_model (Spec.sigmoid 0)
               = "0"%char).
  { unfold AliFilterModel.mask_char.
    destruct (Py.ge _ _) eqn:G; [|reflexivity].
    apply ge_true in G. rewrite sigmoid_zero in G. simpl in G. lra. }
  assert (H1 : AliFilterModel.mask_char distance_model (Spec.sigmoid 1)
               = "1"%char).
  { apply mask_char_one. exact sigmoid_one. }
  unfold AliFilterModel.getMaskFromScores. cbn [map]. rewrite H0, H1.
  reflexivity.
Qed.

Lemma getMask_drops :
  AliFilterModel.getMask distance_model (alignment_of ["A-A"; "aXA"]%string 3)
  = Ok "010"%string.
Proof.
  destruct sample_scores as (F & E & ES).
  unfold AliFilterModel.getMask, AliFilterModel.getMaskFromFeatures.
  rewrite E. cbn [bind]. rewrite ES. cbn [bind]. now rewrite sample_mask.
Defined.

Lemma filter_drops :
  AliFilterModel.filter distance_model (alignment_of ["A-A"; "aXA"]%string 3)
  = Ok (alignment_of ["-"; "X"]%string 1).
Proof.
  destruct sample_scores as (F & E & ES).
  unfold AliFilterModel.filter. rewrite E. cbn [bind]. rewrite ES. cbn [bind].
  assert (HR : forall s,
            (3 <= String.length s)%nat ->
            AliFilterModel.filter_record distance_model
              [Spec.sigmoid 0; Spec.sigmoid 1; Spec.sigmoid 0]%R (record_of s)
            = match String.get 1 s with
              | Some c => Ok (record_of (String c EmptyString))
              | None => Err IndexError
              end).
  { intros s Hs. unfold AliFilterModel.filter_record, range.
    rewrite kept_chars_positions by (repeat constructor).
    rewrite sample_mask. cbn [length List.seq List.filter keep_at String.get].
    simpl. unfold str_index.
    destruct (String.get 1 s); reflexivity. }
  unfold alignment_of. cbn [map records map_raise].
  rewrite !HR by (simpl; lia). reflexivity.
Defined.

Lemma filter_rows_and_columns_witness :
  let a := alignment_of ["A-A"; "aXA"]%string 3 in
  let r := alignment_of ["-"; "X"]%string 1 in
  exists mask,
    AliFilterModel.getMask distance_model a = Ok mask
    /\ String.length mask = get_alignment_length a
    /\ length (records r) = length (records a)
    /\ map Spec.metadata (records r) = map Spec.metadata (records a)
    /\ map seq (records r) = map (fun x => Spec.select mask (seq x)) (records a)
    /\ Forall (fun y => String.length (seq y) = Spec.ones mask) (records r)
    /\ get_alignment_length r = Spec.ones mask.
Proof.
  exact (filter_rows_and_columns distance_model _ _ filter_drops).
Defined.

Lemma filter_agrees_with_mask_witness :
  let a := alignment_of ["A-A"; "aXA"]%string 3 in
  let r := alignment_of ["-"; "X"]%string 1 in
  String.length "010" = get_alignment_length a
  /\ (forall i, In i (Spec.keptColumns "010")
                <-> (i < get_alignment_length a)%nat
                    /\ String.get i "010" = Some "1"%char)
  /\ Forall2 (fun x y =>
                map (fun i => String.get i (seq x)) (Spec.keptColumns "010")
                = map Some (list_ascii_of_string (seq y)))
       (records a) (records r).
Proof.
  exact (filter_agrees_with_mask distance_model _ _ _ filter_drops getMask_drops).
Defined.

(* ================================================================== *)
(** ** [getScores]: the two errors of shape, and the result *)

(** X1.  [getScores] raises [ValueError] whenever the width of the matrix is
    not the number of coefficients, and [TypeError] whenever the width fits
    and there is exactly one row; whenever it returns, the width fits, the
    number of rows is not one, and there is one score per row, in order: the
    logistic function of the product of the row with the coefficients, plus
    the intercept. *)
Theorem getScores_shape_errors (self : AliFilterModel.t) (F : ndarray) :
  (ncols F <> length (AliFilterModel.logisticModelCoefficients self) ->
   AliFilterModel.getScores self F = Err ValueError)
  /\ (ncols F = length (AliFilterModel.logisticModelCoefficients self) ->
      length (rows F) = 1%nat ->
      AliFilterModel.getScores self F = Err TypeError)
  /\ (forall scores,
        AliFilterModel.getScores self F = Ok scores ->
        ncols F = length (AliFilterModel.logisticModelCoefficients self)
        /\ length (rows F) <> 1%nat
        /\ length scores = length (rows F)
        /\ scores = map (score_of self) (rows F)).
Proof.
  split; [|split].
  - intros H. unfold AliFilterModel.getScores, dot.
    apply Nat.eqb_neq in H. now rewrite H.
  - intros Hc H1. unfold AliFilterModel.getScores, dot.
    apply Nat.eqb_eq in Hc. rewrite Hc. cbn [bind].
    now rewrite squeeze_iter_single by (now rewrite length_map).
  - intros scores H. apply getScores_ok in H as (-> & Hc & H1).
    rewrite length_map. auto.
Qed.

Lemma getScores_shape_errors_witness :
  AliFilterModel.getScores zero_model (zeros 2 5) = Err ValueError
  /\ AliFilterModel.getScores zero_model (zeros 1 6) = Err TypeError
  /\ length (repeat 0.5%R 2) = length (rows (zeros 2 6)).
Proof.
  split; [|split].
  - apply (proj1 (getScores_shape_errors zero_model (zeros 2 5))).
    simpl. discriminate.
  - apply (proj1 (proj2 (getScores_shape_errors zero_model (zeros 1 6))));
      reflexivity.
  - apply (proj2 (proj2 (getScores_shape_errors zero_model (zeros 2 6)))).
    apply (proj1 (zero_model_mask (zeros 2 6) eq_refl ltac:(discriminate))).
Defined.

(* ================================================================== *)
(** ** The feature matrix: when it is produced, and how it fails *)

Lemma update_Forall {A} (P : A -> Prop) (i : nat) (v : A) (l : list A) :
  Forall P l -> P v -> Forall P (update i v l).
Proof.
  intros Hl Hv. revert i. induction Hl as [|a l Ha Hl IH]; intros [|i]; simpl;
    try constructor; auto.
Qed.

Lemma index_ok {A} (l : list A) (i : nat) (a : A) :
  index l i = Ok a -> nth_error l i = Some a.
Proof.
  unfold index. destruct (nth_error l i); intros H; [|discriminate].
  now injection H as <-.
Qed.

Lemma setitem_keeps_shaped (L : nat) (fm fm' : ndarray) (i j : nat) (v : R) :
  setitem fm i j v = Ok fm' -> shaped L fm -> shaped L fm'.
Proof.
  unfold setitem. intros H (C & N & Hr). bind_inv H. apply index_ok in E.
  destruct (j <? length x)%nat; [|discriminate]. injection H as <-.
  repeat split; simpl; auto.
  - now rewrite update_length.
  - apply update_Forall; auto. rewrite update_length.
    rewrite Forall_forall in Hr. apply Hr. eapply nth_error_In; eauto.
Qed.

Lemma setitem_shaped (L : nat) (fm : ndarray) (i j : nat) (v : R) :
  shaped L fm -> (i < L)%nat -> (j < 6)%nat ->
  exists fm', setitem fm i j v = Ok fm' /\ shaped L fm'.
Proof.
  intros Hs Hi Hj. pose proof Hs as (C & N & Hr).
  destruct (nth_error_lt_some (rows fm) i) as (r & Er); [lia|].
  assert (H6 : length r = 6%nat).
  { rewrite Forall_forall in Hr. apply Hr. eapply nth_error_In; eauto. }
  eexists. split.
  - apply setitem_eq with (r := r); auto. lia.
  - eapply setitem_keeps_shaped; [|exact Hs].
    apply setitem_eq with (r := r); auto. lia.
Qed.

Lemma getitem_shaped (L : nat) (fm : ndarray) (i j : nat) :
  shaped L fm -> (i < L)%nat -> (j < 6)%nat ->
  exists x, getitem fm i j = Ok x.
Proof.
  intros (C & N & Hr) Hi Hj.
  destruct (nth_error_lt_some (rows fm) i) as (r & Er); [lia|].
  assert (H6 : length r = 6%nat).
  { rewrite Forall_forall in Hr. apply Hr. eapply nth_error_In; eauto. }
  destruct (nth_error_lt_some r j) as (x & Ex); [lia|].
  exists x. now apply getitem_eq with (r := r).
Qed.

Lemma read_if_shaped (L : nat) (fm : ndarray) (c : bool) (j : nat) :
  shaped L fm -> (c = true -> (j < L)%nat) ->
  exists x, read_if c fm j = Ok x.
Proof.
  intros Hs Hc. unfold read_if. destruct c; [|eauto].
  apply getitem_shaped with (L := L); auto. lia.
Qed.

Lemma zeros_shaped (L : nat) : shaped L (zeros L 6).
Proof.
  unfold shaped, zeros. simpl. rewrite repeat_length. repeat split.
  apply Forall_forall. intros r Hr. apply repeat_spec in Hr. now subst.
Qed.

Lemma compute_column_shaped (L : nat) (a : MultipleSeqAlignment) (j : nat)
  (fm fm' : ndarray) :
  __alifilter_computeColumnFeatures a j fm = Ok fm' ->
  shaped L fm -> shaped L fm'.
Proof.
  unfold __alifilter_computeColumnFeatures. intros H Hs.
  repeat bind_inv H.
  destruct (validChars x >? 0)%Z; repeat bind_inv E2;
    repeat match goal with
           | Hf : shaped L ?f, He : setitem ?f _ _ _ = Ok ?g |- _ =>
               apply (setitem_keeps_shaped L f g) in He; [|exact Hf]
           end; assumption.
Qed.

(** The smoothing of a column never fails on a matrix of the right shape. *)
Lemma smooth_column_returns (L i : nat) (fm : ndarray) :
  shaped L fm -> (i < L)%nat ->
  exists fm', smooth_column L i fm = Ok fm' /\ shaped L fm'.
Proof.
  intros Hs Hi.
  assert (Hlo1 : (Z.of_nat i >? 0)%Z = true -> (i - 1 < L)%nat) by (intros; lia).
  assert (Hlo2 : (Z.of_nat i >? 1)%Z = true -> (i - 2 < L)%nat) by (intros; lia).
  assert (Hhi1 : (Z.of_nat i <? Z.of_nat L - 1)%Z = true -> (i + 1 < L)%nat).
  { intros H. apply Z.ltb_lt in H. lia. }
  assert (Hhi2 : (Z.of_nat i <? Z.of_nat L - 2)%Z = true -> (i + 2 < L)%nat).
  { intros H. apply Z.ltb_lt in H. lia. }
  unfold smooth_column.
  destruct (read_if_shaped L fm _ _ Hs Hlo1) as (a1 & ->). cbn [bind].
  destruct (getitem_shaped L fm i 0 Hs Hi) as (a2 & ->); [lia|]. cbn [bind].
  destruct (read_if_shaped L fm _ _ Hs Hhi1) as (a3 & ->). cbn [bind].
  match goal with
  | |- context [setitem fm i 4 ?v] =>
      destruct (setitem_shaped L fm i 4 v Hs Hi) as (fm1 & -> & S1); [lia|]
  end.
  cbn [bind].
  destruct (read_if_shaped L fm1 _ _ S1 Hlo2) as (b1 & ->). cbn [bind].
  destruct (read_if_shaped L fm1 _ _ S1 Hlo1) as (b2 & ->). cbn [bind].
  destruct (getitem_shaped L fm1 i 0 S1 Hi) as (b3 & ->); [lia|]. cbn [bind].
  destruct (read_if_shaped L fm1 _ _ S1 Hhi1) as (b4 & ->). cbn [bind].
  destruct (read_if_shaped L fm1 _ _ S1 Hhi2) as (b5 & ->). cbn [bind].
  apply setitem_shaped; auto.
Qed.

Lemma string_get_none (s : string) : forall n,
  (String.length s <= n)%nat -> String.get n s = None.
Proof.
  induction s as [|c s IH]; intros [|n] H; simpl in *; try lia; auto.
  apply IH. lia.
Qed.

Lemma string_get_some (s : string) (n : nat) (c : ascii) :
  String.get n s = Some c -> (n < String.length s)%nat.
Proof.
  intros H. destruct (Nat.lt_ge_cases n (String.length s)) as [|Hge]; auto.
  rewrite (string_get_none s n Hge) in H. discriminate.
Qed.

(** The row loop raises [IndexError] as soon as a row is too short. *)
Lemma row_loop_short (a : MultipleSeqAlignment) (col : nat) (t : tally) :
  Exists (fun r => ~ reaches col r) (records a) ->
  for_in (range (len a))
    (fun i t => c <- char_at a i col ;; Ok (count_char c t)) t
  = Err IndexError.
Proof.
  intros Hex. unfold range, len.
  assert (G : forall rs pre t,
             records a = pre ++ rs ->
             Exists (fun r => ~ reaches col r) rs ->
             for_in (List.seq (length pre) (length rs))
               (fun i t => c <- char_at a i col ;; Ok (count_char c t)) t
             = Err IndexError).
  { induction rs as [|r rs IH]; intros pre t0 Hrec Hrs.
    - inversion Hrs.
    - cbn [length List.seq for_in].
      unfold char_at at 1. unfold index. rewrite Hrec, nth_error_middle.
      cbn [bind]. unfold str_index.
      destruct (String.get col (seq r)) as [c|] eqn:Hc; cbn [bind].
      + specialize (IH (pre ++ [r]) (count_char c t0)).
        rewrite length_app in IH. cbn [length] in IH.
        rewrite Nat.add_1_r in IH. apply IH.
        * rewrite <- app_assoc. exact Hrec.
        * inversion Hrs as [? ? Hr|? ? Hr]; subst; auto.
          exfalso. apply Hr. unfold reaches. eapply string_get_some; eauto.
      + reflexivity. }
  apply (G (records a) [] t); auto.
Qed.

Lemma reaches_dec (j : nat) (r : SeqRecord) : {reaches j r} + {~ reaches j r}.
Proof. unfold reaches. apply lt_dec. Qed.

Lemma compute_column_returns (L : nat) (a : MultipleSeqAlignment) (j : nat)
  (fm : ndarray) :
  shaped L fm -> (j < L)%nat ->
  Forall (reaches j) (records a) -> (0 < len a)%nat ->
  exists fm', __alifilter_computeColumnFeatures a j fm = Ok fm' /\ shaped L fm'.
Proof.
  intros Hs Hj Hall Hlen.
  assert (E : exists fm', __alifilter_computeColumnFeatures a j fm = Ok fm').
  { unfold __alifilter_computeColumnFeatures.
    rewrite row_loop by exact Hall. cbn [bind].
    fold (tally_from tally0 (Spec.column a j)). rewrite tally_counts.
    unfold truediv.
    replace (Z.of_nat (len a) =? 0)%Z with false
      by (symmetry; apply Z.eqb_neq; lia).
    cbn [bind].
    match goal with
    | |- context [setitem fm j 0 ?v] =>
        destruct (setitem_shaped L fm j 0 v Hs Hj) as (fm1 & -> & S1); [lia|]
    end.
    cbn [bind].
    destruct (validChars (tally_from tally0 (Spec.column a j)) >? 0)%Z.
    - unfold Spec.alphabet. cbn [List.seq map Py.max bind].
      match goal with
      | |- context [setitem fm1 j 1 ?v] =>
          destruct (setitem_shaped L fm1 j 1 v S1 Hj) as (fm2 & -> & S2); [lia|]
      end.
      cbn [bind].
      match goal with
      | |- context [setitem fm2 j 3 ?v] =>
          destruct (setitem_shaped L fm2 j 3 v S2 Hj) as (fm3 & -> & S3); [lia|]
      end.
      cbn [bind].
      match goal with
      | |- context [setitem fm3 j 2 ?v] =>
          destruct (setitem_shaped L fm3 j 2 v S3 Hj) as (fm4 & -> & S4); [lia|]
      end.
      eauto.
    - destruct (setitem_shaped L fm1 j 1 0%R S1 Hj) as (fm2 & -> & S2); [lia|].
      cbn [bind].
      destruct (setitem_shaped L fm2 j 3 0%R S2 Hj) as (fm3 & -> & S3); [lia|].
      cbn [bind].
      match goal with
      | |- context [setitem fm3 j 2 ?v] =>
          destruct (setitem_shaped L fm3 j 2 v S3 Hj) as (fm4 & -> & S4); [lia|]
      end.
      eauto. }
  destruct E as (fm' & E). exists fm'. split; [exact E|].
  eapply compute_column_shaped; eauto.
Qed.

Lemma for_in_range_outcome {St : Type} (P : nat -> St -> Prop)
  (Q : exn -> Prop) (body : nat -> St -> result St) (n : nat) (s0 : St) :
  P 0%nat s0 ->
  (forall i s, (i < n)%nat -> P i s ->
     (exists s', body i s = Ok s' /\ P (S i) s')
     \/ (exists e, body i s = Err e /\ Q e)) ->
  (exists s', for_in (range n) body s0 = Ok s' /\ P n s')
  \/ (exists e, for_in (range n) body s0 = Err e /\ Q e).
Proof.
  intros H0 Hstep. unfold range.
  assert (G : forall m start s, (start + m = n)%nat -> P start s ->
              (exists s', for_in (List.seq start m) body s = Ok s' /\ P n s')
              \/ (exists e, for_in (List.seq start m) body s = Err e /\ Q e)).
  { induction m as [|m IH]; intros start s Hn Hs; simpl.
    - left. replace n with start by lia. eauto.
    - destruct (Hstep start s) as [(s1 & E1 & P1)|(e & E1 & Q1)];
        [lia | assumption | |].
      + rewrite E1. simpl. apply IH; [lia | assumption].
      + rewrite E1. simpl. right. eauto. }
  apply G; [lia | assumption].
Qed.

Lemma for_in_ok_each {X St : Type} (body : X -> St -> result St)
  (xs : list X) : forall s s',
  for_in xs body s = Ok s' ->
  forall x, In x xs -> exists s1 s2, body x s1 = Ok s2.
Proof.
  induction xs as [|y xs IH]; simpl; intros s s' H x Hx; [contradiction|].
  bind_inv H. destruct Hx as [<-|Hx]; eauto.
Qed.

Lemma compute_column_short (a : MultipleSeqAlignment) (j : nat) (fm : ndarray) :
  Exists (fun r => ~ reaches j r) (records a) ->
  __alifilter_computeColumnFeatures a j fm = Err IndexError.
Proof.
  intros H. unfold __alifilter_computeColumnFeatures.
  now rewrite row_loop_short.
Qed.

Lemma compute_column_ok_reaches (a : MultipleSeqAlignment) (j : nat)
  (fm fm' : ndarray) :
  __alifilter_computeColumnFeatures a j fm = Ok fm' ->
  Forall (reaches j) (records a).
Proof.
  intros H.
  destruct (Forall_Exists_dec (reaches j) (reaches_dec j) (records a))
    as [Hall|Hex]; auto.
  rewrite (compute_column_short a j fm Hex) in H. discriminate.
Qed.

Lemma first_pass_ok_reaches (a : MultipleSeqAlignment) (fm0 fm : ndarray) :
  for_in (range (get_alignment_length a))
    (fun i fm => __alifilter_computeColumnFeatures a i fm) fm0 = Ok fm ->
  forall i, (i < get_alignment_length a)%nat -> Forall (reaches i) (records a).
Proof.
  intros H i Hi.
  destruct (for_in_ok_each _ _ _ _ H i) as (s1 & s2 & E).
  - apply in_seq. lia.
  - eapply compute_column_ok_reaches; eauto.
Qed.

Lemma first_pass_outcome (a : MultipleSeqAlignment) :
  (0 < len a)%nat ->
  (exists fm,
     for_in (range (get_alignment_length a))
       (fun i fm => __alifilter_computeColumnFeatures a i fm)
       (zeros (get_alignment_length a) 6) = Ok fm
     /\ shaped (get_alignment_length a) fm)
  \/ for_in (range (get_alignment_length a))
       (fun i fm => __alifilter_computeColumnFeatures a i fm)
       (zeros (get_alignment_length a) 6) = Err IndexError.
Proof.
  intros Hlen. set (L := get_alignment_length a).
  destruct (for_in_range_outcome
              (fun _ fm => shaped L fm) (fun e => e = IndexError)
              (fun i fm => __alifilter_computeColumnFeatures a i fm)
              L (zeros L 6)) as [(fm & E & Hs)|(e & E & ->)].
  - apply zeros_shaped.
  - intros i fm Hi Hs.
    destruct (Forall_Exists_dec (reaches i) (reaches_dec i) (records a))
      as [Hall|Hex].
    + left. now apply compute_column_returns.
    + right. exists IndexError. split; auto. now apply compute_column_short.
  - left. eauto.
  - right. exact E.
Qed.

Lemma second_pass_returns (L : nat) (fm : ndarray) :
  shaped L fm ->
  exists fm', for_in (range L) (smooth_column L) fm = Ok fm' /\ shaped L fm'.
Proof.
  intros Hs.
  apply (for_in_range_total (fun _ fm => shaped L fm)); auto.
  intros i s Hi Hsh. now apply smooth_column_returns.
Qed.

(** The outcome of the feature extraction on 7-bit text, for any records and
    any reported length.  It returns a matrix exactly when the alignment has
    no columns, or has at least one row and every row is at least as long as
    the alignment (longer rows are read up to the alignment length only); the
    matrix then has one row of six entries per column.  It raises
    [ZeroDivisionError] exactly when there are columns but no rows, which
    cannot be with the length Biopython reports, and [IndexError] exactly
    when there are rows and one of them is shorter than the alignment. *)
Lemma features_outcome (a : MultipleSeqAlignment) :
  match __alifilter_getAlignmentFeatures a with
  | Ok F =>
      shaped (get_alignment_length a) F
      /\ (get_alignment_length a = 0%nat
          \/ ((0 < len a)%nat
              /\ Forall (fun r => (get_alignment_length a
                                   <= String.length (seq r))%nat)
                   (records a)))
  | Err e =>
      (e = ZeroDivisionError /\ len a = 0%nat
       /\ (0 < get_alignment_length a)%nat)
      \/ (e = IndexError /\ (0 < len a)%nat
          /\ Exists (fun r => (String.length (seq r)
                               < get_alignment_length a)%nat)
               (records a))
  end.
Proof.
  destruct (Nat.eq_dec (get_alignment_length a) 0) as [L0|L0].
  - unfold __alifilter_getAlignmentFeatures. rewrite L0. simpl.
    split; [apply zeros_shaped | now left].
  - destruct (Nat.eq_dec (len a) 0) as [N0|N0].
    + rewrite zero_sequences_features by lia. left. repeat split; auto. lia.
    + destruct (first_pass_outcome a) as [(fm & E & Hs)|E]; [lia| |].
      * destruct (second_pass_returns _ fm Hs) as (F & EF & HF).
        unfold __alifilter_getAlignmentFeatures. rewrite E. cbn [bind].
        rewrite EF. split; [exact HF|]. right. split; [lia|].
        pose proof (first_pass_ok_reaches a _ _ E
                      (get_alignment_length a - 1)) as Hr.
        eapply Forall_impl; [|apply Hr; lia].
        unfold reaches. simpl. intros r Hlt. lia.
      * unfold __alifilter_getAlignmentFeatures. rewrite E. cbn [bind].
        right. split; [reflexivity|]. split; [lia|].
        destruct (Forall_Exists_dec
                    (fun r => (get_alignment_length a
                               <= String.length (seq r))%nat)
                    (fun r => le_dec _ _) (records a)) as [Hall|Hex].
        -- exfalso.
           destruct (for_in_range_total
                       (fun _ fm => shaped (get_alignment_length a) fm)
                       (fun i fm => __alifilter_computeColumnFeatures a i fm)
                       (get_alignment_length a)
                       (zeros (get_alignment_length a) 6))
             as (fm & E' & _).
           ++ apply zeros_shaped.
           ++ intros i s Hi Hs. apply compute_column_returns; auto; [|lia].
              eapply Forall_impl; [|exact Hall]. unfold reaches. simpl.
              intros r Hle. lia.
           ++ congruence.
        -- eapply Exists_impl; [|exact Hex]. simpl. intros r Hn. lia.
Qed.

(** A row longer than the alignment is read up to the alignment length. *)
Example longer_rows_are_read_up_to_the_length :
  exists F,
    __alifilter_getAlignmentFeatures (alignment_of ["AC-GT"; "ACG"]%string 2)
    = Ok F /\ length (rows F) = 2%nat.
Proof. eexists. split; [vm_compute; reflexivity | reflexivity]. Qed.


(* ================================================================== *)
(** ** Any bytes, any records: [Raw] against the functions above *)

(** On every character but the sharp s, the row step is the one above. *)
Lemma Raw_count_char_text (c : ascii) (t : tally) :
  nat_of_ascii c <> 223%nat ->
  Raw.count_char c t = Ok (count_char c t).
Proof.
  intros H.
  destruct c as [[] [] [] [] [] [] [] []];
    try reflexivity; exfalso; apply H; reflexivity.
Qed.

(** On the sharp s the row step raises: [ord] is given two characters. *)
Lemma Raw_count_char_sharp_s (c : ascii) (t : tally) :
  nat_of_ascii c = 223%nat -> Raw.count_char c t = Err TypeError.
Proof.
  intros H. rewrite <- (ascii_nat_embedding c), H. reflexivity.
Qed.

(** Whatever the row step returns is what the step above returns. *)
Lemma Raw_count_char_ok (c : ascii) (t t' : tally) :
  Raw.count_char c t = Ok t' -> t' = count_char c t.
Proof.
  intros H. destruct (Nat.eq_dec (nat_of_ascii c) 223) as [E|E].
  - rewrite Raw_count_char_sharp_s in H by assumption. discriminate.
  - rewrite Raw_count_char_text in H by assumption. now injection H.
Qed.

Lemma for_in_refines {X St : Type} (f g : X -> St -> result St) (xs : list X) :
  (forall x s s', f x s = Ok s' -> g x s = Ok s') ->
  forall s s', for_in xs f s = Ok s' -> for_in xs g s = Ok s'.
Proof.
  intros H. induction xs as [|x xs IH]; simpl; intros s s' E; auto.
  bind_inv E. rewrite (H _ _ _ E0). simpl. auto.
Qed.

Lemma for_in_ext_in {X St : Type} (f g : X -> St -> result St) (xs : list X) :
  (forall x s, In x xs -> f x s = g x s) ->
  forall s, for_in xs f s = for_in xs g s.
Proof.
  induction xs as [|x xs IH]; intros H s; simpl; auto.
  rewrite H by (now left). destruct (g x s); simpl; auto.
  apply IH. intros; apply H; now right.
Qed.

Lemma get_in_list (s : string) : forall n c,
  String.get n s = Some c -> In c (list_ascii_of_string s).
Proof.
  induction s as [|d s IH]; intros [|n] c H; simpl in *; try discriminate.
  - left. congruence.
  - right. eauto.
Qed.

(** A character the extractor reads is a character of the alignment. *)
Lemma char_at_every (P : ascii -> Prop) (a : MultipleSeqAlignment)
  (i col : nat) (c : ascii) :
  every_char P a -> char_at a i col = Ok c -> P c.
Proof.
  unfold every_char, char_at, index, str_index. intros Ha H.
  destruct (nth_error (records a) i) as [r|] eqn:Er; [|discriminate].
  cbn [bind] in H.
  destruct (String.get col (seq r)) as [d|] eqn:Ed; [|discriminate].
  injection H as <-.
  rewrite Forall_forall in Ha. specialize (Ha r (nth_error_In _ _ Er)).
  rewrite Forall_forall in Ha. apply Ha. eapply get_in_list; eauto.
Qed.

Lemma Raw_row_step_text (a : MultipleSeqAlignment) (i col : nat) (t : tally) :
  every_char (fun c => nat_of_ascii c <> 223%nat) a ->
  (c <- char_at a i col ;; Raw.count_char c t)
  = (c <- char_at a i col ;; Ok (count_char c t)).
Proof.
  intros Ha. destruct (char_at a i col) as [c|e] eqn:E; [|reflexivity].
  cbn [bind]. apply Raw_count_char_text.
  exact (char_at_every _ a i col c Ha E).
Qed.

Lemma Raw_row_step_ok (a : MultipleSeqAlignment) (i col : nat) (t t' : tally) :
  (c <- char_at a i col ;; Raw.count_char c t) = Ok t' ->
  (c <- char_at a i col ;; Ok (count_char c t)) = Ok t'.
Proof.
  destruct (char_at a i col) as [c|e]; [|discriminate].
  cbn [bind]. intros H. now rewrite (Raw_count_char_ok _ _ _ H).
Qed.

(** Without a sharp s the extractor on bytes is the extractor above. *)
Lemma Raw_compute_column_text (a : MultipleSeqAlignment) (j : nat)
  (fm : ndarray) :
  every_char (fun c => nat_of_ascii c <> 223%nat) a ->
  Raw.__alifilter_computeColumnFeatures a j fm
  = __alifilter_computeColumnFeatures a j fm.
Proof.
  intros Ha.
  unfold Raw.__alifilter_computeColumnFeatures,
    __alifilter_computeColumnFeatures.
  rewrite (for_in_ext_in _
             (fun i t => c <- char_at a i j ;; Ok (count_char c t)))
    by (intros; now apply Raw_row_step_text).
  reflexivity.
Qed.

Lemma Raw_features_no_sharp_s (a : MultipleSeqAlignment) :
  every_char (fun c => nat_of_ascii c <> 223%nat) a ->
  Raw.__alifilter_getAlignmentFeatures a = __alifilter_getAlignmentFeatures a.
Proof.
  intros Ha.
  unfold Raw.__alifilter_getAlignmentFeatures,
    __alifilter_getAlignmentFeatures.
  rewrite (for_in_ext_in _
             (fun i fm => __alifilter_computeColumnFeatures a i fm))
    by (intros; now apply Raw_compute_column_text).
  reflexivity.
Qed.

Lemma ascii_text_no_sharp_s (a : MultipleSeqAlignment) :
  ascii_text a -> every_char (fun c => nat_of_ascii c <> 223%nat) a.
Proof.
  unfold ascii_text, every_char. intros H.
  eapply Forall_impl; [|exact H]. intros r Hr.
  eapply Forall_impl; [|exact Hr]. simpl. intros c Hc. lia.
Qed.

(** On 7-bit text the two embeddings of the feature extraction are equal. *)
Lemma Raw_features_text (a : MultipleSeqAlignment) :
  ascii_text a ->
  Raw.__alifilter_getAlignmentFeatures a = __alifilter_getAlignmentFeatures a.
Proof.
  intros H. now apply Raw_features_no_sharp_s, ascii_text_no_sharp_s.
Qed.

Lemma Raw_compute_column_ok (a : MultipleSeqAlignment) (j : nat)
  (fm fm' : ndarray) :
  Raw.__alifilter_computeColumnFeatures a j fm = Ok fm' ->
  __alifilter_computeColumnFeatures a j fm = Ok fm'.
Proof.
  unfold Raw.__alifilter_computeColumnFeatures,
    __alifilter_computeColumnFeatures.
  intros H. apply bind_ok in H as (t & E & H).
  rewrite (for_in_refines _
             (fun i t => c <- char_at a i j ;; Ok (count_char c t)) _
             (fun i s s' => Raw_row_step_ok a i j s s') _ _ E).
  exact H.
Qed.

(** On any bytes, a matrix the extraction returns is the matrix the
    extraction above returns. *)
Lemma Raw_features_ok (a : MultipleSeqAlignment) (F : ndarray) :
  Raw.__alifilter_getAlignmentFeatures a = Ok F ->
  __alifilter_getAlignmentFeatures a = Ok F.
Proof.
  unfold Raw.__alifilter_getAlignmentFeatures,
    __alifilter_getAlignmentFeatures.
  intros H. apply bind_ok in H as (fm & E & H).
  rewrite (for_in_refines _
             (fun i fm => __alifilter_computeColumnFeatures a i fm) _
             (fun i s s' => Raw_compute_column_ok a i s s') _ _ E).
  exact H.
Qed.

Lemma Raw_getMask_ok (self : AliFilterModel.t) (a : MultipleSeqAlignment)
  (mask : string) :
  Raw.getMask self a = Ok mask -> AliFilterModel.getMask self a = Ok mask.
Proof.
  unfold Raw.getMask, AliFilterModel.getMask. intros H.
  apply bind_ok in H as (F & E & H). now rewrite (Raw_features_ok _ _ E).
Qed.

Lemma new_record_ok (s i n d : string) (x f : list string)
  (an la : list (string * string)) (r : SeqRecord) :
  new_record s i n d x f an la = Ok r -> r = mk_SeqRecord s i n d x f an la.
Proof.
  unfold new_record. destruct (forallb _ la); intros H; [|discriminate].
  now injection H.
Qed.

Lemma Raw_filter_record_ok (self : AliFilterModel.t) (scores : list R)
  (x y : SeqRecord) :
  Raw.filter_record self scores x = Ok y ->
  AliFilterModel.filter_record self scores x = Ok y.
Proof.
  unfold Raw.filter_record, AliFilterModel.filter_record. intros H.
  apply bind_ok in H as (cs & E & H). rewrite E. cbn [bind].
  now rewrite (new_record_ok _ _ _ _ _ _ _ _ _ H).
Qed.

Lemma map_raise_refines {X Y} (f g : X -> result Y) (xs : list X) :
  (forall x y, f x = Ok y -> g x = Ok y) ->
  forall ys, map_raise f xs = Ok ys -> map_raise g xs = Ok ys.
Proof.
  intros H. induction xs as [|x xs IH]; simpl; intros ys E; auto.
  apply bind_ok in E as (y & Ey & E). apply bind_ok in E as (ys' & Eys & E).
  rewrite (H _ _ Ey). cbn [bind]. rewrite (IH _ Eys). exact E.
Qed.

(** On any bytes and any records, an alignment the filter returns is the
    alignment [AliFilterModel.filter] returns: what is proved of every result
    of the latter holds of every result of the filter. *)
Lemma Raw_filter_ok (self : AliFilterModel.t) (a r : MultipleSeqAlignment) :
  Raw.filter self a = Ok r -> AliFilterModel.filter self a = Ok r.
Proof.
  unfold Raw.filter, AliFilterModel.filter. intros H.
  apply bind_ok in H as (F & EF & H). apply bind_ok in H as (scores & ES & H).
  apply bind_ok in H as (rs & ER & H).
  rewrite (Raw_features_ok _ _ EF). cbn [bind]. rewrite ES. cbn [bind].
  rewrite (map_raise_refines _ (AliFilterModel.filter_record self scores) _
             (Raw_filter_record_ok self scores) _ ER).
  exact H.
Qed.

Lemma Raw_filter_record_plain (self : AliFilterModel.t) (scores : list R)
  (x : SeqRecord) :
  letter_annotations x = [] ->
  Raw.filter_record self scores x = AliFilterModel.filter_record self scores x.
Proof.
  intros H. unfold Raw.filter_record, AliFilterModel.filter_record.
  destruct (AliFilterModel.kept_chars _ _ _ _) as [cs|e]; [|reflexivity].
  cbn [bind]. unfold new_record. rewrite H. reflexivity.
Qed.


Lemma Raw_filter_text (self : AliFilterModel.t) (a : MultipleSeqAlignment) :
  ascii_text a -> plain_records a ->
  Raw.filter self a = AliFilterModel.filter self a.
Proof.
  intros Ht Hp. unfold Raw.filter, AliFilterModel.filter.
  rewrite Raw_features_text by assumption.
  destruct (__alifilter_getAlignmentFeatures a) as [F|e]; [|reflexivity].
  cbn [bind].
  destruct (AliFilterModel.getScores self F) as [scores|e]; [|reflexivity].
  cbn [bind].
  rewrite (map_raise_ext (Raw.filter_record self scores)
             (AliFilterModel.filter_record self scores)); [reflexivity|].
  intros x Hx. apply Raw_filter_record_plain.
  unfold plain_records in Hp. rewrite Forall_forall in Hp. now apply Hp.
Qed.

(** On 7-bit text the extractor on bytes computes the four base features of
    the specification, as the extractor above does. *)
Lemma Raw_extractor_on_text (a : MultipleSeqAlignment) (i : nat) :
  ascii_text a ->
  rectangular a -> (0 < len a)%nat -> (i < get_alignment_length a)%nat ->
  (forall fm r,
     nth_error (rows fm) i = Some r -> length r = 6%nat ->
     exists fm',
       Raw.__alifilter_computeColumnFeatures a i fm = Ok fm'
       /\ getitem fm' i 0 = Ok (Spec.gapFraction a i)
       /\ getitem fm' i 1 = Ok (Spec.maxIdentityFraction a i)
       /\ getitem fm' i 2 = Ok (Spec.distanceFromExtremity a i)
       /\ getitem fm' i 3 = Ok (Spec.shannonEntropy a i))
  /\ exists F,
       Raw.__alifilter_getAlignmentFeatures a = Ok F
       /\ getitem F i 0 = Ok (Spec.gapFraction a i)
       /\ getitem F i 1 = Ok (Spec.maxIdentityFraction a i)
       /\ getitem F i 2 = Ok (Spec.distanceFromExtremity a i)
       /\ getitem F i 3 = Ok (Spec.shannonEntropy a i).
Proof.
  intros Ht Hrect Hlen Hi.
  destruct (extractor_base_features a i Hrect Hlen Hi) as (H1 & H2).
  split.
  - intros fm r Hr H6.
    rewrite Raw_compute_column_text by now apply ascii_text_no_sharp_s.
    now apply H1 with (r := r).
  - now rewrite Raw_features_text.
Qed.

(** C3, at the failing input.  In a rectangular alignment of two rows and two
    columns whose first row begins with the sharp s (byte 223), that
    character is neither a gap nor a letter, and yet it is not skipped: its
    upper case is the two letters [SS], [ord] refuses them with [TypeError],
    and the extractor and the builder raise that exception. *)
Theorem sharp_s_raises :
  rectangular (alignment_of [String sharp_s "C"; "AC"%string] 2)
  /\ Spec.is_gap sharp_s = false
  /\ Spec.is_valid sharp_s = false
  /\ (forall t, Raw.count_char sharp_s t = Err TypeError)
  /\ Raw.__alifilter_computeColumnFeatures
       (alignment_of [String sharp_s "C"; "AC"%string] 2) 0 (zeros 2 6)
     = Err TypeError
  /\ Raw.__alifilter_getAlignmentFeatures
       (alignment_of [String sharp_s "C"; "AC"%string] 2)
     = Err TypeError.
Proof.
  split; [repeat constructor|].
  split; [reflexivity|]. split; [reflexivity|].
  split; [intros t; reflexivity|].
  split; reflexivity.
Qed.

(* ================================================================== *)
(** ** The feature matrix on the alignments Biopython builds *)

Lemma consistent_rows (a : MultipleSeqAlignment) :
  consistent a ->
  Forall (fun r => (String.length (seq r) <= get_alignment_length a)%nat)
    (records a).
Proof.
  unfold consistent, longest. intros ->.
  apply Forall_forall. intros r Hr.
  assert (H : Forall (fun k => (k <= list_max (map (fun r => String.length (seq r))
                                                  (records a)))%nat)
                (map (fun r => String.length (seq r)) (records a)))
    by (apply list_max_le; lia).
  rewrite Forall_forall in H. apply H.
  exact (in_map (fun r => String.length (seq r)) _ _ Hr).
Qed.

(** A rectangular alignment with a row reports the length Biopython
    computes. *)
Lemma rectangular_consistent (a : MultipleSeqAlignment) :
  rectangular a -> (0 < len a)%nat -> consistent a.
Proof.
  unfold rectangular, consistent, longest, len.
  set (L := get_alignment_length a). clearbody L.
  destruct (records a) as [|r rs]; simpl; [lia|].
  intros H _. inversion H as [|? ? Hr Hrs]; subst.
  clear H. induction Hrs as [|x xs Hx _ IH]; simpl in *; lia.
Qed.

(** X2.  The outcome of the feature extraction on an alignment of 7-bit text
    that reports the length of its longest row, as Biopython does.  It
    returns a matrix, of one row of six entries per column, exactly when all
    rows have the same length, and raises [IndexError] exactly when a row is
    shorter than the longest; it raises nothing else, and in particular never
    divides by zero: without rows there are no columns. *)
Theorem extraction_outcome (a : MultipleSeqAlignment) :
  ascii_text a -> consistent a ->
  match Raw.__alifilter_getAlignmentFeatures a with
  | Ok F => shaped (get_alignment_length a) F /\ rectangular a
  | Err e =>
      e = IndexError
      /\ Exists (fun r => (String.length (seq r) < get_alignment_length a)%nat)
           (records a)
  end.
Proof.
  intros Ht Hc. rewrite Raw_features_text by assumption.
  pose proof (consistent_rows a Hc) as Hle.
  pose proof (features_outcome a) as H.
  destruct (__alifilter_getAlignmentFeatures a) as [F|e].
  - destruct H as (Hs & H). split; [exact Hs|].
    unfold rectangular. destruct H as [L0|(_ & Hge)].
    + rewrite Forall_forall in *. intros r Hr.
      specialize (Hle r Hr). cbv beta in Hle. lia.
    + rewrite Forall_forall in *. intros r Hr.
      specialize (Hle r Hr). specialize (Hge r Hr). cbv beta in Hle, Hge. lia.
  - destruct H as [(_ & Hlen & HL)|(-> & _ & Hex)]; [|auto].
    exfalso. unfold consistent, longest, len in *.
    destruct (records a); [simpl in Hc; lia | discriminate].
Qed.

Lemma sample_text : ascii_text (alignment_of ["A-A"; "aXA"]%string 3).
Proof.
  unfold ascii_text, every_char. simpl.
  repeat (apply Forall_cons || apply Forall_nil);
          apply Nat.ltb_lt; reflexivity.
Qed.

Lemma extraction_outcome_witness :
  Raw.__alifilter_getAlignmentFeatures (alignment_of ["AC"; "A"]%string 2)
  = Err IndexError
  /\ exists F,
       Raw.__alifilter_getAlignmentFeatures
         (alignment_of ["A-A"; "aXA"]%string 3) = Ok F
       /\ shaped 3 F.
Proof.
  split.
  - pose proof (extraction_outcome (alignment_of ["AC"; "A"]%string 2)) as H.
    destruct (Raw.__alifilter_getAlignmentFeatures
                (alignment_of ["AC"; "A"]%string 2)) as [F|e].
    + exfalso. destruct H as (_ & Hr).
      * unfold ascii_text, every_char. simpl.
        repeat (apply Forall_cons || apply Forall_nil);
          apply Nat.ltb_lt; reflexivity.
      * reflexivity.
      * inversion Hr as [|? ? _ Hr']; subst.
        inversion Hr' as [|? ? H1 _]; subst. simpl in H1. discriminate.
    + destruct H as (-> & _); [| |reflexivity].
      * unfold ascii_text, every_char. simpl.
        repeat (apply Forall_cons || apply Forall_nil);
          apply Nat.ltb_lt; reflexivity.
      * reflexivity.
  - pose proof (extraction_outcome (alignment_of ["A-A"; "aXA"]%string 3)
                  sample_text
                  (rectangular_consistent _ sample_rectangular
                     ltac:(vm_compute; lia))) as H.
    destruct (Raw.__alifilter_getAlignmentFeatures
                (alignment_of ["A-A"; "aXA"]%string 3)) as [F|e].
    + exists F. split; [reflexivity|]. exact (proj1 H).
    + exfalso. destruct H as (_ & Hex).
      inversion Hex as [? ? H1|? ? Hex']; subst; [simpl in H1; lia|].
      inversion Hex' as [? ? H1|? ? Hex'']; subst; [simpl in H1; lia|].
      inversion Hex''.
Defined.

(* ================================================================== *)
(** ** An alignment without columns *)

Lemma new_alignment_empty_rows (rs : list SeqRecord) :
  new_alignment (map (with_seq EmptyString) rs)
  = Ok (mk_alignment (map (with_seq EmptyString) rs) 0).
Proof.
  unfold new_alignment. destruct rs as [|r0 rs]; [reflexivity|]. simpl.
  replace (forallb _ (map (with_seq EmptyString) rs)) with true;
    [reflexivity|].
  symmetry. apply forallb_forall. intros r Hr.
  apply in_map_iff in Hr as (r' & <- & _). reflexivity.
Qed.

(** X3.  An alignment of length zero is accepted whatever its rows are, even
    without rows: the feature matrix is the empty matrix of width six, and a
    model with six coefficients returns the empty mask and the alignment with
    every sequence emptied and every other field of its records kept. *)
Theorem zero_columns (self : AliFilterModel.t) (a : MultipleSeqAlignment) :
  get_alignment_length a = 0%nat ->
  length (AliFilterModel.logisticModelCoefficients self) = 6%nat ->
  __alifilter_getAlignmentFeatures a = Ok (zeros 0 6)
  /\ AliFilterModel.getScores self (zeros 0 6) = Ok []
  /\ AliFilterModel.getMask self a = Ok EmptyString
  /\ AliFilterModel.filter self a
     = Ok (mk_alignment (map (with_seq EmptyString) (records a)) 0).
Proof.
  intros L0 H6.
  assert (EF : __alifilter_getAlignmentFeatures a = Ok (zeros 0 6)).
  { unfold __alifilter_getAlignmentFeatures. rewrite L0. reflexivity. }
  assert (ES : AliFilterModel.getScores self (zeros 0 6) = Ok []).
  { rewrite getScores_rows; simpl; auto. }
  split; [exact EF|]. split; [exact ES|]. split.
  - unfold AliFilterModel.getMask, AliFilterModel.getMaskFromFeatures.
    rewrite EF. cbn [bind]. rewrite ES. reflexivity.
  - unfold AliFilterModel.filter. rewrite EF. cbn [bind]. rewrite ES.
    cbn [bind].
    rewrite map_raise_all with (g := with_seq EmptyString).
    + cbn [bind]. apply new_alignment_empty_rows.
    + intros x _. apply filter_record_none. constructor.
Qed.

Lemma zero_columns_witness :
  AliFilterModel.getMask zero_model (alignment_of ["ACGT"; ""]%string 0)
  = Ok EmptyString
  /\ AliFilterModel.filter zero_model (alignment_of ["ACGT"; ""]%string 0)
     = Ok (alignment_of [""; ""]%string 0).
Proof.
  destruct (zero_columns zero_model (alignment_of ["ACGT"; ""]%string 0))
    as (_ & _ & HM & HF); [reflexivity | reflexivity |].
  split; [exact HM | exact HF].
Defined.

(* ================================================================== *)
(** ** The mask and the filter return together *)







(** The scores of [distance_model] on three columns. *)
Lemma distance_scores (a : MultipleSeqAlignment) :
  rectangular a -> (0 < len a)%nat -> get_alignment_length a = 3%nat ->
  exists F,
    __alifilter_getAlignmentFeatures a = Ok F
    /\ AliFilterModel.getScores distance_model F
       = Ok [Spec.sigmoid 0; Spec.sigmoid 1; Spec.sigmoid 0]%R.
Proof.
  intros Hrect Hlen HL.
  destruct (features_closed_form a Hrect (fun _ => Hlen))
    as (F & E & C & N & Hrows).
  rewrite HL in N, Hrows.
  exists F. split; [exact E|].
  rewrite getScores_rows by (rewrite ?C, ?N; simpl; congruence).
  rewrite (three_rows _ F N Hrows). cbn [map].
  rewrite !distance_model_score. unfold Spec.distanceFromExtremity.
  rewrite HL. reflexivity.
Qed.

(** With per-letter annotations the filter does not return when a column is
    dropped: the annotations keep their length, the sequence does not, and
    [SeqRecord] refuses them.  The mask is returned all the same. *)
Example annotated_records_are_refused :
  let a := mk_alignment [annotated_record "A-A" "!!!";
                         annotated_record "aXA" "###"] 3 in
  Raw.getMask distance_model a = Ok "010"%string
  /\ Raw.filter distance_model a = Err TypeError
  /\ AliFilterModel.filter distance_model a
     = Ok (mk_alignment [annotated_record "-" "!!!";
                         annotated_record "X" "###"] 1).
Proof.
  intros a.
  assert (Hrect : rectangular a) by (repeat constructor).
  assert (Ht : ascii_text a).
  { unfold ascii_text, every_char. simpl.
    repeat (apply Forall_cons || apply Forall_nil);
      apply Nat.ltb_lt; reflexivity. }
  destruct (distance_scores a Hrect ltac:(vm_compute; lia) eq_refl)
    as (F & E & ES).
  assert (HK : forall s, (3 <= String.length s)%nat ->
            AliFilterModel.kept_chars distance_model s
              [Spec.sigmoid 0; Spec.sigmoid 1; Spec.sigmoid 0]%R (range 3)
            = match String.get 1 s with
              | Some c => Ok [c]
              | None => Err IndexError
              end).
  { intros s Hs. unfold range.
    rewrite kept_chars_positions by (repeat constructor).
    rewrite sample_mask. cbn [length List.seq List.filter keep_at String.get].
    simpl. unfold str_index.
    destruct (String.get 1 s); reflexivity. }
  split; [|split].
  - unfold Raw.getMask. rewrite Raw_features_text by exact Ht.
    rewrite E. cbn [bind]. unfold AliFilterModel.getMaskFromFeatures.
    rewrite ES. cbn [bind]. now rewrite sample_mask.
  - unfold Raw.filter. rewrite Raw_features_text by exact Ht.
    rewrite E. cbn [bind]. rewrite ES. cbn [bind].
    unfold a. cbn [records map_raise]. unfold Raw.filter_record at 1.
    cbn [length]. rewrite HK by (simpl; lia). reflexivity.
  - unfold AliFilterModel.filter. rewrite E. cbn [bind]. rewrite ES.
    cbn [bind]. unfold a. cbn [records map_raise].
    unfold AliFilterModel.filter_record. cbn [length].
    rewrite !HK by (simpl; lia). reflexivity.
Qed.

(* ================================================================== *)
(** ** Thresholds *)

Lemma mask_all_zeros (self : AliFilterModel.t) (vs : list (list R)) :
  (forall v, (score_of self v < AliFilterModel.threshold self)%R) ->
  AliFilterModel.getMaskFromScores self (map (score_of self) vs)
  = string_of_list_ascii (repeat "0"%char (length vs)).
Proof.
  intros Hall. unfold AliFilterModel.getMaskFromScores, join. f_equal.
  rewrite map_map. induction vs as [|v vs IH]; simpl; auto.
  rewrite IH. f_equal. unfold AliFilterModel.mask_char.
  destruct (Py.ge _ _) eqn:G; [|reflexivity].
  apply ge_true in G. specialize (Hall v). lra.
Qed.

Lemma getMask_of_scores (self : AliFilterModel.t) (a : MultipleSeqAlignment) :
  rectangular a ->
  ((0 < get_alignment_length a)%nat -> (0 < len a)%nat) ->
  get_alignment_length a <> 1%nat ->
  length (AliFilterModel.logisticModelCoefficients self) = 6%nat ->
  exists vs,
    length vs = get_alignment_length a
    /\ AliFilterModel.getMask self a
       = Ok (AliFilterModel.getMaskFromScores self (map (score_of self) vs)).
Proof.
  intros Hrect Hlen H1 H6.
  destruct (features_closed_form a Hrect Hlen) as (F & E & C & N & _).
  exists (rows F). split; [exact N|].
  unfold AliFilterModel.getMask, AliFilterModel.getMaskFromFeatures.
  rewrite E. cbn [bind]. now rewrite getScores_rows by congruence.
Qed.

Lemma score_below_one (self : AliFilterModel.t) (v : list R) :
  (0 < score_of self v < 1)%R.
Proof. unfold score_of. apply sigmoid_range. Qed.

(** X5.  With a threshold above 1 no column is kept: a mask [getMask]
    returns is all ['0'], one per column, and an alignment [filter] returns
    has the rows of the source, in order, each with its sequence emptied and
    its other fields kept, and no column. *)
Theorem above_one_keeps_nothing (self : AliFilterModel.t)
  (a : MultipleSeqAlignment) :
  (1 < AliFilterModel.threshold self)%R ->
  (forall mask, AliFilterModel.getMask self a = Ok mask ->
     mask = string_of_list_ascii (repeat "0"%char (get_alignment_length a)))
  /\ (forall r, AliFilterModel.filter self a = Ok r ->
        r = mk_alignment (map (with_seq EmptyString) (records a)) 0).
Proof.
  intros Hth.
  assert (Hlow : forall v, (score_of self v < AliFilterModel.threshold self)%R).
  { intros v. pose proof (score_below_one self v). lra. }
  split.
  - intros mask H.
    unfold AliFilterModel.getMask, AliFilterModel.getMaskFromFeatures in H.
    apply bind_ok in H as (F & EF & H). apply bind_ok in H as (scores & ES & H).
    injection H as <-.
    apply getScores_ok in ES as (-> & _ & _).
    apply features_shape in EF as (_ & N).
    now rewrite mask_all_zeros, N.
  - intros r H. unfold AliFilterModel.filter in H.
    apply bind_ok in H as (F & EF & H). apply bind_ok in H as (scores & ES & H).
    apply getScores_ok in ES as (-> & _ & _).
    rewrite map_raise_all with (g := with_seq EmptyString) in H.
    + cbn [bind] in H. rewrite new_alignment_empty_rows in H. now injection H.
    + intros x Hx. apply filter_record_none.
      apply Forall_forall. intros s Hs. apply in_map_iff in Hs as (v & <- & _).
      destruct (Py.ge (score_of self v) (AliFilterModel.threshold self)) eqn:G;
        [|reflexivity].
      apply ge_true in G. specialize (Hlow v). lra.
Qed.

Lemma above_one_keeps_nothing_witness :
  (exists mask,
     AliFilterModel.getMask unreachable_model
       (alignment_of ["A-A"; "aXA"]%string 3) = Ok mask
     /\ mask = "000"%string)
  /\ (exists r,
        AliFilterModel.filter unreachable_model
          (alignment_of ["A-A"; "aXA"]%string 3) = Ok r
        /\ r = alignment_of [""; ""]%string 0).
Proof.
  assert (Hth : (1 < AliFilterModel.threshold unreachable_model)%R)
    by (simpl; lra).
  destruct (above_one_keeps_nothing unreachable_model
              (alignment_of ["A-A"; "aXA"]%string 3) Hth) as (HM & HF).
  split.
  - destruct (getMask_of_scores unreachable_model
                (alignment_of ["A-A"; "aXA"]%string 3) sample_rectangular)
      as (vs & _ & E); [intros _; vm_compute; lia | discriminate | reflexivity |].
    eexists. split; [exact E|]. exact (HM _ E).
  - assert (E : AliFilterModel.filter unreachable_model
                  (alignment_of ["A-A"; "aXA"]%string 3)
                = Ok (mk_alignment
                        (map (with_seq EmptyString)
                           (records (alignment_of ["A-A"; "aXA"]%string 3))) 0)).
    { apply filter_unreachable_threshold;
        [exact sample_rectangular | intros _; vm_compute; lia | discriminate
        | reflexivity | exact Hth]. }
    eexists. split; [exact E|]. exact (HF _ E).
Defined.

Lemma getMask_keeps_all (self : AliFilterModel.t) (a : MultipleSeqAlignment) :
  rectangular a -> (0 < len a)%nat ->
  get_alignment_length a <> 1%nat ->
  length (AliFilterModel.logisticModelCoefficients self) = 6%nat ->
  (AliFilterModel.threshold self <= 0)%R ->
  AliFilterModel.getMask self a
  = Ok (string_of_list_ascii (repeat "1"%char (get_alignment_length a))).
Proof.
  intros Hrect Hlen H1 H6 Hth.
  destruct (getMask_of_scores self a Hrect (fun _ => Hlen) H1 H6)
    as (vs & N & ->).
  rewrite mask_all_ones, N; [reflexivity|].
  intros v. pose proof (score_below_one self v). lra.
Qed.

Lemma getScores_with_threshold (t : R) (self : AliFilterModel.t) (F : ndarray) :
  AliFilterModel.getScores (with_threshold t self) F
  = AliFilterModel.getScores self F.
Proof. reflexivity. Qed.

(** X7.  The threshold decides nothing but the mask: two models that differ
    in their threshold only return a mask on the same alignments, of the same
    length, and every column the higher threshold keeps the lower threshold
    keeps too. *)
Theorem raising_the_threshold (self : AliFilterModel.t) (t1 t2 : R)
  (a : MultipleSeqAlignment) (m2 : string) :
  (t1 <= t2)%R ->
  AliFilterModel.getMask (with_threshold t2 self) a = Ok m2 ->
  exists m1,
    AliFilterModel.getMask (with_threshold t1 self) a = Ok m1
    /\ String.length m1 = String.length m2
    /\ forall i, String.get i m2 = Some "1"%char ->
                 String.get i m1 = Some "1"%char.
Proof.
  intros Ht H2.
  unfold AliFilterModel.getMask, AliFilterModel.getMaskFromFeatures in *.
  destruct (__alifilter_getAlignmentFeatures a) as [F|e]; [|discriminate].
  cbn [bind] in *. rewrite getScores_with_threshold in *.
  destruct (AliFilterModel.getScores self F) as [scores|e]; [|discriminate].
  cbn [bind] in *. injection H2 as <-.
  eexists. split; [reflexivity|]. split.
  - unfold AliFilterModel.getMaskFromScores, join.
    now rewrite !length_string_of_list, !length_map.
  - intros i. unfold AliFilterModel.getMaskFromScores, join.
    rewrite !get_string_of_list, !nth_error_map.
    destruct (nth_error scores i) as [x|]; simpl; [|discriminate].
    intros H. injection H as H. apply mask_char_one in H. f_equal.
    apply mask_char_one. simpl in *. lra.
Qed.

Lemma getMask_with_threshold_zero :
  AliFilterModel.getMask (with_threshold 0 distance_model)
    (alignment_of ["A-A"; "aXA"]%string 3)
  = Ok "111"%string.
Proof.
  apply (getMask_keeps_all (with_threshold 0 distance_model)
           (alignment_of ["A-A"; "aXA"]%string 3)).
  - exact sample_rectangular.
  - vm_compute. lia.
  - discriminate.
  - reflexivity.
  - simpl. lra.
Qed.

Lemma raising_the_threshold_witness :
  exists m1,
    AliFilterModel.getMask (with_threshold 0 distance_model)
      (alignment_of ["A-A"; "aXA"]%string 3) = Ok m1
    /\ String.length m1 = String.length "010"
    /\ forall i, String.get i "010" = Some "1"%char ->
                 String.get i m1 = Some "1"%char.
Proof.
  apply (raising_the_threshold distance_model 0 0.6
           (alignment_of ["A-A"; "aXA"]%string 3) "010").
  - lra.
  - exact getMask_drops.
Defined.

(** X6.  With a threshold that is not positive every column is kept, the
    scores being numbers: a mask [getMask] returns is all ['1'], one per
    column, and an alignment [filter] returns for a rectangular alignment has
    the records of the source, with the same sequences and fields, and its
    length. *)
Theorem not_positive_keeps_everything (self : AliFilterModel.t)
  (a : MultipleSeqAlignment) :
  (AliFilterModel.threshold self <= 0)%R ->
  (forall mask, AliFilterModel.getMask self a = Ok mask ->
     mask = string_of_list_ascii (repeat "1"%char (get_alignment_length a)))
  /\ (forall r, AliFilterModel.filter self a = Ok r -> rectangular a -> r = a).
Proof.
  intros Hth.
  assert (Hhigh : forall v, (score_of self v >= AliFilterModel.threshold self)%R).
  { intros v. pose proof (score_below_one self v). lra. }
  split.
  - intros mask H.
    unfold AliFilterModel.getMask, AliFilterModel.getMaskFromFeatures in H.
    apply bind_ok in H as (F & EF & H). apply bind_ok in H as (scores & ES & H).
    injection H as <-.
    apply getScores_ok in ES as (-> & _ & _).
    apply features_shape in EF as (_ & N).
    now rewrite mask_all_ones, N.
  - intros r H Hrect. unfold AliFilterModel.filter in H.
    apply bind_ok in H as (F & EF & H). apply bind_ok in H as (scores & ES & H).
    apply getScores_ok in ES as (-> & _ & _).
    pose proof (features_shape a F EF) as (_ & N).
    rewrite map_raise_all with (g := fun x => x) in H.
    + cbn [bind] in H. rewrite map_id in H.
      rewrite new_alignment_rectangular in H; [now injection H | exact Hrect |].
      intros HL. destruct (len a) eqn:Hl; [|lia].
      pose proof (features_need_rows a F EF Hl). lia.
    + intros x Hx. apply filter_record_all.
      * apply Forall_forall. intros s Hs.
        apply in_map_iff in Hs as (v & <- & _). apply ge_true, Hhigh.
      * rewrite length_map, N. unfold rectangular in Hrect.
        rewrite Forall_forall in Hrect. now apply Hrect.
Qed.

Lemma not_positive_keeps_everything_witness :
  (exists mask,
     AliFilterModel.getMask (with_threshold 0 distance_model)
       (alignment_of ["A-A"; "aXA"]%string 3) = Ok mask
     /\ mask = "111"%string)
  /\ (exists r,
        AliFilterModel.filter (with_threshold 0 distance_model)
          (alignment_of ["A-A"; "aXA"]%string 3) = Ok r
        /\ r = alignment_of ["A-A"; "aXA"]%string 3).
Proof.
  assert (Hth : (AliFilterModel.threshold (with_threshold 0 distance_model)
                 <= 0)%R) by (simpl; lra).
  destruct (not_positive_keeps_everything (with_threshold 0 distance_model)
              (alignment_of ["A-A"; "aXA"]%string 3) Hth) as (HM & HF).
  split.
  - eexists. split; [exact getMask_with_threshold_zero|].
    exact (HM _ getMask_with_threshold_zero).
  - assert (E : AliFilterModel.filter (with_threshold 0 distance_model)
                  (alignment_of ["A-A"; "aXA"]%string 3)
                = Ok (alignment_of ["A-A"; "aXA"]%string 3)).
    { apply filter_keeps_all;
        [exact sample_rectangular | vm_compute; lia | discriminate
        | reflexivity |].
      intros v.
      pose proof (score_below_one (with_threshold 0 distance_model) v).
      simpl. lra. }
    eexists. split; [exact E|]. exact (HF _ E sample_rectangular).
Defined.

(* ================================================================== *)
(** ** The features do not depend on the case of the letters *)

Lemma count_char_upper (c : ascii) (t : tally) :
  count_char (upper c) t = count_char c t.
Proof.
  destruct c as [[] [] [] [] [] [] [] []]; reflexivity.
Qed.

Lemma get_upper_string (s : string) : forall n,
  String.get n (upper_string s) = option_map upper (String.get n s).
Proof.
  induction s as [|c s IH]; intros [|n]; simpl; auto.
Qed.

Lemma for_in_ext {X St : Type} (f g : X -> St -> result St) (xs : list X) :
  (forall x s, f x s = g x s) ->
  forall s, for_in xs f s = for_in xs g s.
Proof.
  intros H. induction xs as [|x xs IH]; intros s; simpl; auto.
  rewrite H. destruct (g x s); simpl; auto.
Qed.

Lemma row_step_upper (a : MultipleSeqAlignment) (col i : nat) (t : tally) :
  (c <- char_at (upper_alignment a) i col ;; Ok (count_char c t))
  = (c <- char_at a i col ;; Ok (count_char c t)).
Proof.
  unfold char_at, upper_alignment, index. simpl records.
  rewrite nth_error_map.
  destruct (nth_error (records a) i) as [r|]; simpl; [|reflexivity].
  unfold str_index. rewrite get_upper_string.
  destruct (String.get col (seq r)) as [c|]; simpl; [|reflexivity].
  now rewrite count_char_upper.
Qed.

Lemma compute_column_upper (a : MultipleSeqAlignment) (j : nat) (fm : ndarray) :
  __alifilter_computeColumnFeatures (upper_alignment a) j fm
  = __alifilter_computeColumnFeatures a j fm.
Proof.
  unfold __alifilter_computeColumnFeatures.
  assert (Hlen : len (upper_alignment a) = len a).
  { unfold len, upper_alignment. simpl. apply length_map. }
  rewrite Hlen.
  rewrite (for_in_ext _ (fun i t => c <- char_at a i j ;; Ok (count_char c t)))
    by (intros; apply row_step_upper).
  reflexivity.
Qed.

(** X8.  Putting every sequence in upper case changes nothing for the
    extraction: it gives the same feature matrix, or raises the same
    exception, and so does the mask of any model. *)
Theorem features_ignore_case (a : MultipleSeqAlignment) :
  __alifilter_getAlignmentFeatures (upper_alignment a)
  = __alifilter_getAlignmentFeatures a
  /\ forall self,
       AliFilterModel.getMask self (upper_alignment a)
       = AliFilterModel.getMask self a.
Proof.
  assert (E : __alifilter_getAlignmentFeatures (upper_alignment a)
              = __alifilter_getAlignmentFeatures a).
  { unfold __alifilter_getAlignmentFeatures. simpl get_alignment_length.
    rewrite (for_in_ext _ (fun i fm => __alifilter_computeColumnFeatures a i fm))
      by (intros; apply compute_column_upper).
    reflexivity. }
  split; [exact E|]. intros self. unfold AliFilterModel.getMask. now rewrite E.
Qed.

(* ================================================================== *)
(** ** The features do not depend on the order of the rows *)







(* ================================================================== *)
(** ** More on the values of the features *)










(* ================================================================== *)
(** ** What each pass leaves alone *)

Lemma setitem_frame (fm fm' : ndarray) (i j : nat) (v : R) :
  setitem fm i j v = Ok fm' ->
  forall k c, k <> i \/ c <> j -> getitem fm' k c = getitem fm k c.
Proof.
  unfold setitem. intros H k c Hkc. bind_inv H. apply index_ok in E.
  destruct (j <? length x)%nat eqn:Hj; [|discriminate]. injection H as <-.
  unfold getitem, index. simpl rows.
  destruct (Nat.eq_dec k i) as [->|Hk].
  - destruct Hkc as [Hk|Hc]; [congruence|].
    rewrite nth_error_update_eq by (apply nth_error_Some; congruence).
    rewrite E. cbn [bind]. now rewrite nth_error_update_ne by congruence.
  - now rewrite nth_error_update_ne by congruence.
Qed.

(** X12.  The extractor writes entries 0 to 3 of the row of its column and
    nothing else: every other row, and entries 4 and 5 of that row, are in
    the matrix it returns as they were in the matrix it was given. *)
Theorem extractor_frame (a : MultipleSeqAlignment) (j : nat)
  (fm fm' : ndarray) :
  __alifilter_computeColumnFeatures a j fm = Ok fm' ->
  forall k c, k <> j \/ (4 <= c)%nat -> getitem fm' k c = getitem fm k c.
Proof.
  unfold __alifilter_computeColumnFeatures. intros H k c Hkc.
  repeat bind_inv H.
  destruct (validChars x >? 0)%Z; repeat bind_inv E2;
    repeat match goal with
           | He : setitem ?f _ _ _ = Ok ?g |- _ =>
               apply setitem_frame with (k := k) (c := c) in He; [|lia]
           end; congruence.
Qed.

Lemma extractor_frame_witness :
  exists fm',
    __alifilter_computeColumnFeatures (alignment_of ["A-A"; "aXA"]%string 3) 1
      (zeros 3 6) = Ok fm'
    /\ getitem fm' 1 4 = getitem (zeros 3 6) 1 4
    /\ getitem fm' 2 0 = getitem (zeros 3 6) 2 0.
Proof.
  destruct (compute_column_returns 3 (alignment_of ["A-A"; "aXA"]%string 3) 1
              (zeros 3 6)) as (fm' & E & _).
  - apply zeros_shaped.
  - lia.
  - repeat constructor.
  - vm_compute. lia.
  - exists fm'. split; [exact E|]. split.
    + apply (extractor_frame _ _ _ _ E). right. lia.
    + apply (extractor_frame _ _ _ _ E). left. lia.
Defined.

(** X13.  The smoothing of column [i] writes entries 4 and 5 of row [i] and
    nothing else; in particular it leaves the gap fractions (column 0), which
    the smoothing of the other columns reads, as the first pass wrote them. *)
Theorem smoothing_frame (L i : nat) (fm fm' : ndarray) :
  smooth_column L i fm = Ok fm' ->
  forall k c, k <> i \/ (c <> 4 /\ c <> 5)%nat ->
              getitem fm' k c = getitem fm k c.
Proof.
  unfold smooth_column. intros H k c Hkc. repeat bind_inv H.
  repeat match goal with
         | He : setitem ?f _ _ _ = Ok ?g |- _ =>
             apply setitem_frame with (k := k) (c := c) in He; [|lia]
         end; congruence.
Qed.

Lemma smoothing_frame_witness :
  exists fm',
    smooth_column 3 1 (zeros 3 6) = Ok fm'
    /\ getitem fm' 1 0 = getitem (zeros 3 6) 1 0
    /\ getitem fm' 0 4 = getitem (zeros 3 6) 0 4.
Proof.
  destruct (smooth_column_returns 3 1 (zeros 3 6)) as (fm' & E & _).
  - apply zeros_shaped.
  - lia.
  - exists fm'. split; [exact E|]. split.
    + apply (smoothing_frame _ _ _ _ E). right. lia.
    + apply (smoothing_frame _ _ _ _ E). left. lia.
Defined.

(* ================================================================== *)
(** ** The distance from the extremity, conserved columns, the mask *)







(** X16.  A mask that [getMask] returns has one character per column of the
    alignment, and each of them is ['0'] or ['1']. *)
Theorem mask_is_binary (self : AliFilterModel.t) (a : MultipleSeqAlignment)
  (mask : string) :
  AliFilterModel.getMask self a = Ok mask ->
  String.length mask = get_alignment_length a
  /\ forall i c, String.get i mask = Some c -> c = "0"%char \/ c = "1"%char.
Proof.
  unfold AliFilterModel.getMask, AliFilterModel.getMaskFromFeatures.
  intros H. bind_inv H. bind_inv H. injection H as <-.
  pose proof (features_shape a x E) as (_ & N).
  pose proof (getScores_ok self x x0 E0) as (Hs & _ & _).
  unfold AliFilterModel.getMaskFromScores, join. split.
  - now rewrite length_string_of_list, length_map, Hs, length_map.
  - intros i c. rewrite get_string_of_list, nth_error_map.
    destruct (nth_error x0 i) as [s|]; simpl; [|discriminate].
    intros Hc. injection Hc as <-. unfold AliFilterModel.mask_char.
    destruct (Py.ge s (AliFilterModel.threshold self)); auto.
Qed.

Lemma mask_is_binary_witness :
  String.length "010" = 3%nat
  /\ forall i c, String.get i "010" = Some c -> c = "0"%char \/ c = "1"%char.
Proof.
  exact (mask_is_binary distance_model _ _ getMask_drops).
Defined.
